(** * Mizo dictionary translation server: a shallow embedding

    The development follows [translation_server.py]: a Flask application
    that forwards words to a translation provider and memoises the answers
    in the module-level dictionary [CACHE].

    - Python values that reach the handlers come from JSON (the request
      body, the provider's reply); they are the inductive type [pyval].
    - Python exceptions are the type [exn]; code that may raise lives in the
      monad [M], a state monad over the process state whose results are
      either a returned value or a raised exception.  A raised exception
      keeps the state reached so far, as mutation of [CACHE] does in Python.
    - The provider is outside the program.  It is a function from the
      requests sent so far and the present request to what [requests.post]
      does; every request sent is appended to the field [sent] of the
      state, which is how statements about network calls are phrased.
    - Logging ([print]) has no effect on any value and is left out. *)

From Stdlib Require Import ZArith Ascii String List Lia.
From stdpp Require Import base option list strings gmap fin_maps.

Set Warnings "-register-all".
Local Open Scope string_scope.
Local Open Scope Z_scope.
Local Open Scope list_scope.

(** ** Python values *)

(** The values of the [json] module.  A [dict] is kept as the list of its
    items in insertion order, with distinct keys; JSON numbers are the
    integers (no code below computes with a number, only its truth value
    and its type are ever inspected). *)
Inductive pyval : Type :=
| PNone
| PBool (b : bool)
| PInt (z : Z)
| PStr (s : string)
| PList (l : list pyval)
| PDict (d : list (string * pyval)).

Inductive exn : Type :=
| AttributeError
| KeyError
| TypeError
| IndexError
| JSONDecodeError
| ConnectionError.

Inductive outcome (A : Type) : Type :=
| Return (a : A)
| Raise (e : exn).
Arguments Return {A} a.
Arguments Raise {A} e.

(** [bool(v)], the test of [if v:] and [not v]. *)
Definition truthy (v : pyval) : bool :=
  match v with
  | PNone => false
  | PBool b => b
  | PInt z => negb (z =? 0)
  | PStr s => negb (String.eqb s "")
  | PList l => match l with [] => false | _ :: _ => true end
  | PDict d => match d with [] => false | _ :: _ => true end
  end.

(** *** Strings

    A [str] is a [string] whose characters are code points below 256.
    On these, [str.lower] maps A-Z and the accented capitals
    U+00C0..U+00DE (U+00D7, the multiplication sign, apart) 32 places up
    and [str.isspace] holds of twelve code points: U+0009..U+000D,
    U+001C..U+0020, U+0085 and U+00A0.  [str.strip] removes these from
    both ends. *)
Definition lower_char (c : ascii) : ascii :=
  let n := N_of_ascii c in
  if ((65 <=? n) && (n <=? 90) ||
      (192 <=? n) && (n <=? 222) && negb (n =? 215))%N
  then ascii_of_N (n + 32)
  else c.

Fixpoint lower (s : string) : string :=
  match s with
  | EmptyString => EmptyString
  | String c s' => String (lower_char c) (lower s')
  end.

Definition isspace (c : ascii) : bool :=
  let n := N_of_ascii c in
  ((9 <=? n) && (n <=? 13) || (28 <=? n) && (n <=? 32) ||
   (n =? 133) || (n =? 160))%N.

Fixpoint lstrip (s : string) : string :=
  match s with
  | EmptyString => EmptyString
  | String c s' => if isspace c then lstrip s' else s
  end.

Fixpoint rstrip (s : string) : string :=
  match s with
  | EmptyString => EmptyString
  | String c s' =>
      match rstrip s' with
      | EmptyString => if isspace c then EmptyString else String c EmptyString
      | r => String c r
      end
  end.

Definition strip (s : string) : string := rstrip (lstrip s).

(** [needle in hay] on two strings: [needle] occurs in [hay]. *)
Fixpoint str_contains (needle hay : string) : bool :=
  String.prefix needle hay ||
  match hay with
  | EmptyString => false
  | String _ hay' => str_contains needle hay'
  end.

(** *** Operations on values *)

Fixpoint dict_lookup (k : string) (d : list (string * pyval)) : option pyval :=
  match d with
  | [] => None
  | (k', v) :: d' => if String.eqb k k' then Some v else dict_lookup k d'
  end.

(** [v == s] for a string literal [s]. *)
Definition py_eq_str (v : pyval) (s : string) : bool :=
  match v with
  | PStr t => String.eqb t s
  | _ => false
  end.

(** [k in c] for a string [k]: key of a dict, element of a list, substring
    of a string; the other values are not iterable. *)
Definition py_in (k : string) (c : pyval) : outcome bool :=
  match c with
  | PDict d => Return (match dict_lookup k d with Some _ => true | None => false end)
  | PList l => Return (existsb (fun v => py_eq_str v k) l)
  | PStr s => Return (str_contains k s)
  | _ => Raise TypeError
  end.

(** [c[k]] for a string [k]. *)
Definition py_getitem_str (c : pyval) (k : string) : outcome pyval :=
  match c with
  | PDict d => match dict_lookup k d with Some v => Return v | None => Raise KeyError end
  | _ => Raise TypeError
  end.

(** [c[0]]. *)
Definition py_getitem_0 (c : pyval) : outcome pyval :=
  match c with
  | PList l => match l with v :: _ => Return v | [] => Raise IndexError end
  | PStr s => match s with String a _ => Return (PStr (String a EmptyString))
                         | EmptyString => Raise IndexError end
  | PDict _ => Raise KeyError
  | _ => Raise TypeError
  end.

(** [d.get(k, default)]: only a dict has the method. *)
Definition py_get (d : pyval) (k : string) (default : pyval) : outcome pyval :=
  match d with
  | PDict items => Return (match dict_lookup k items with Some v => v | None => default end)
  | _ => Raise AttributeError
  end.

(** [v.strip()] and [v.lower()]: only a str has the methods. *)
Definition py_strip (v : pyval) : outcome string :=
  match v with
  | PStr s => Return (strip s)
  | _ => Raise AttributeError
  end.

Definition py_lower (v : pyval) : outcome string :=
  match v with
  | PStr s => Return (lower s)
  | _ => Raise AttributeError
  end.

Definition isinstance_list (v : pyval) : bool :=
  match v with
  | PList _ => true
  | _ => false
  end.

(** ** The provider and the process state *)

(** The [params] of the one request the server sends. *)
Record call : Type := Call {
  q : pyval;
  source : pyval;
  target : pyval;
  key : string;
  format : string
}.

(** What the provider answers: the status code and the body as
    [response.json()] parses it ([None] when it is not JSON). *)
Record response : Type := Response {
  status_code : Z;
  json : option pyval
}.

(** What [requests.post] does: it raises, or returns a response. *)
Inductive post_result : Type :=
| Failed
| Replied (r : response).

(** The outer dictionary [CACHE] has the two keys ['en-to-mizo'] and
    ['mizo-to-en'] from its creation on and nothing adds or removes one:
    it is a record of the two inner dictionaries. *)
Record state : Type := State {
  en_to_mizo : gmap string pyval;
  mizo_to_en : gmap string pyval;
  sent : list call
}.

Definition initial : state :=
  {| en_to_mizo := ∅; mizo_to_en := ∅; sent := [] |}.

(** ** The monad of handlers *)

Definition M (A : Type) : Type := state -> outcome A * state.

Definition ret {A} (a : A) : M A := fun s => (Return a, s).

Definition raise {A} (e : exn) : M A := fun s => (Raise e, s).

Definition bind {A B} (m : M A) (f : A -> M B) : M B :=
  fun s =>
    match m s with
    | (Return a, s') => f a s'
    | (Raise e, s') => (Raise e, s')
    end.

Definition lift {A} (o : outcome A) : M A := fun s => (o, s).

(** [try: m except Exception: h]. *)
Definition try_except {A} (m : M A) (h : exn -> M A) : M A :=
  fun s =>
    match m s with
    | (Return a, s') => (Return a, s')
    | (Raise e, s') => h e s'
    end.

Notation "'let*' x ':=' m 'in' k" := (bind m (fun x => k))
  (at level 10, x name, m at level 100, k at level 200, only parsing).

(** [CACHE[direction]]: a list or a dict is not hashable, every other
    value but the two keys is missing. *)
Definition CACHE_getitem (direction : pyval) : M (gmap string pyval) :=
  fun s =>
    match direction with
    | PStr d =>
        if String.eqb d "en-to-mizo" then (Return (en_to_mizo s), s)
        else if String.eqb d "mizo-to-en" then (Return (mizo_to_en s), s)
        else (Raise KeyError, s)
    | PList _ | PDict _ => (Raise TypeError, s)
    | _ => (Raise KeyError, s)
    end.

(** [CACHE[direction][cache_key] = result]. *)
Definition CACHE_setitem (direction : pyval) (cache_key : string)
    (result : pyval) : M unit :=
  fun s =>
    match direction with
    | PStr d =>
        if String.eqb d "en-to-mizo" then
          (Return tt, {| en_to_mizo := <[cache_key := result]> (en_to_mizo s);
                         mizo_to_en := mizo_to_en s;
                         sent := sent s |})
        else if String.eqb d "mizo-to-en" then
          (Return tt, {| en_to_mizo := en_to_mizo s;
                         mizo_to_en := <[cache_key := result]> (mizo_to_en s);
                         sent := sent s |})
        else (Raise KeyError, s)
    | PList _ | PDict _ => (Raise TypeError, s)
    | _ => (Raise KeyError, s)
    end.

Definition LANGUAGE_CODES : pyval :=
  PDict [("english", PStr "en"); ("mizo", PStr "lus")].

Definition response_json (r : response) : outcome pyval :=
  match json r with
  | Some v => Return v
  | None => Raise JSONDecodeError
  end.

(** ** The server *)

Section Server.

(** The provider: the requests already sent and the present one decide
    what [requests.post] does. *)
Variable provider : list call -> call -> post_result.

(** The credential read from the environment at start-up. *)
Variable GOOGLE_API_KEY : string.

(** [requests.post(GOOGLE_TRANSLATE_URL, params=params)]. *)
Definition requests_post (params : call) : M response :=
  fun s =>
    let s' := {| en_to_mizo := en_to_mizo s;
                 mizo_to_en := mizo_to_en s;
                 sent := sent s ++ [params] |} in
    match provider (sent s) params with
    | Failed => (Raise ConnectionError, s')
    | Replied r => (Return r, s')
    end.

(** [translate_with_google(text, source_lang, target_lang)]. *)
Definition translate_with_google (text source_lang target_lang : pyval)
    : M pyval :=
  try_except
    (let params := {| q := text; source := source_lang; target := target_lang;
                      key := GOOGLE_API_KEY; format := "text" |} in
     let* response := requests_post params in
     if status_code response =? 200 then
       let* result := lift (response_json response) in
       let* has_data := lift (py_in "data" result) in
       let* has_translations :=
         (if has_data : bool then
            let* data := lift (py_getitem_str result "data") in
            lift (py_in "translations" data)
          else ret false) in
       if has_translations : bool then
         let* data := lift (py_getitem_str result "data") in
         let* translations := lift (py_getitem_str data "translations") in
         let* first := lift (py_getitem_0 translations) in
         let* translation := lift (py_getitem_str first "translatedText") in
         ret translation
       else ret PNone
     else ret PNone)
    (fun _ => ret PNone).

(** [translate(text, direction)]. *)
Definition translate (text direction : pyval) : M pyval :=
  let* cache_key := lift (py_lower text) in
  let* entries := CACHE_getitem direction in
  match entries !! cache_key with
  | Some cached => ret cached
  | None =>
      let* codes :=
        (if py_eq_str direction "en-to-mizo" then
           let* source := lift (py_getitem_str LANGUAGE_CODES "english") in
           let* target := lift (py_getitem_str LANGUAGE_CODES "mizo") in
           ret (source, target)
         else
           let* source := lift (py_getitem_str LANGUAGE_CODES "mizo") in
           let* target := lift (py_getitem_str LANGUAGE_CODES "english") in
           ret (source, target)) in
      let* result := translate_with_google text (fst codes) (snd codes) in
      let* _ := (if truthy result
                 then CACHE_setitem direction cache_key result
                 else ret tt) in
      ret result
  end.

(** *** The routes

    A handler takes the parsed body [request.json] and returns the pair
    that Flask turns into a reply: the JSON body and the status code (200
    where the source gives none). *)

(** [POST /api/translate-mizo]. *)
Definition api_translate_mizo (data : pyval) : M (pyval * Z) :=
  let* field := lift (py_get data "word" (PStr "")) in
  let* word := lift (py_strip field) in
  if negb (truthy (PStr word)) then
    ret (PDict [("error", PStr "No word provided");
                ("success", PBool false)], 400)
  else
    let* translation := translate (PStr word) (PStr "mizo-to-en") in
    if truthy translation then
      let* entries := CACHE_getitem (PStr "mizo-to-en") in
      ret (PDict [("mizo", PStr word);
                  ("english", translation);
                  ("direction", PStr "mizo-to-english");
                  ("model", PStr "Google Cloud Translate");
                  ("cached", PBool (bool_decide (is_Some (entries !! lower word))));
                  ("success", PBool true)], 200)
    else
      ret (PDict [("error", PStr "Translation failed");
                  ("success", PBool false)], 500).

(** [POST /api/translate-english]. *)
Definition api_translate_english (data : pyval) : M (pyval * Z) :=
  let* field := lift (py_get data "word" (PStr "")) in
  let* word := lift (py_strip field) in
  if negb (truthy (PStr word)) then
    ret (PDict [("error", PStr "No word provided");
                ("success", PBool false)], 400)
  else
    let* translation := translate (PStr word) (PStr "en-to-mizo") in
    if truthy translation then
      let* entries := CACHE_getitem (PStr "en-to-mizo") in
      ret (PDict [("english", PStr word);
                  ("mizo", translation);
                  ("direction", PStr "english-to-mizo");
                  ("model", PStr "Google Cloud Translate");
                  ("cached", PBool (bool_decide (is_Some (entries !! lower word))));
                  ("success", PBool true)], 200)
    else
      ret (PDict [("error", PStr "Translation failed");
                  ("success", PBool false)], 500).

(** The loop [for word in ...: translation = translate(word, direction); if
    translation: results.append(...)] of the batch route, [results] being
    the list built so far. *)
Fixpoint batch_loop (words : list pyval) (direction : pyval)
    (results : list pyval) : M (list pyval) :=
  match words with
  | [] => ret results
  | word :: rest =>
      let* translation := translate word direction in
      batch_loop rest direction
        (if truthy translation
         then results ++ [PDict [("input", word);
                                 ("output", translation);
                                 ("direction", direction)]]
         else results)
  end.

(** [POST /api/batch-translate]. *)
Definition api_batch_translate (data : pyval) : M (pyval * Z) :=
  let* words := lift (py_get data "words" (PList [])) in
  let* direction := lift (py_get data "direction" (PStr "mizo-to-en")) in
  if negb (truthy words) || negb (isinstance_list words) then
    ret (PDict [("error", PStr "Invalid words list");
                ("success", PBool false)], 400)
  else
    match words with
    | PList items =>
        let* results := batch_loop (firstn 20 items) direction [] in
        ret (PDict [("translations", PList results);
                    ("count", PInt (Z.of_nat (length results)));
                    ("model", PStr "Google Cloud Translate");
                    ("success", PBool true)], 200)
    | _ => raise TypeError
    end.

(** [GET /api/status]. *)
Definition api_status : M (pyval * Z) :=
  let* mizo := CACHE_getitem (PStr "mizo-to-en") in
  let* english := CACHE_getitem (PStr "en-to-mizo") in
  ret (PDict [("model_loaded", PBool true);
              ("model_name", PStr "Google Cloud Translate API");
              ("model_version", PStr "v2");
              ("accuracy", PStr "Very High (90%+)");
              ("cache_size",
               PDict [("mizo_to_english", PInt (Z.of_nat (size mizo)));
                      ("english_to_mizo", PInt (Z.of_nat (size english)))]);
              ("features",
               PDict [("offline_mode", PStr "English → Mizo (dictionary.json)");
                      ("online_mode", PStr "English ↔ Mizo (Google Translate)")]);
              ("api_key_configured", PBool (truthy (PStr GOOGLE_API_KEY)));
              ("status", PStr "online")], 200).

(** [CACHE[direction].clear()]. *)
Definition CACHE_clear (direction : pyval) : M unit :=
  fun s =>
    match direction with
    | PStr d =>
        if String.eqb d "en-to-mizo" then
          (Return tt, {| en_to_mizo := ∅;
                         mizo_to_en := mizo_to_en s;
                         sent := sent s |})
        else if String.eqb d "mizo-to-en" then
          (Return tt, {| en_to_mizo := en_to_mizo s;
                         mizo_to_en := ∅;
                         sent := sent s |})
        else (Raise KeyError, s)
    | PList _ | PDict _ => (Raise TypeError, s)
    | _ => (Raise KeyError, s)
    end.

(** [POST /api/clear-cache]. *)
Definition api_clear_cache : M (pyval * Z) :=
  let* _ := CACHE_clear (PStr "mizo-to-en") in
  let* _ := CACHE_clear (PStr "en-to-mizo") in
  ret (PDict [("message", PStr "Cache cleared");
              ("success", PBool true)], 200).

End Server.

Arguments requests_post provider params s /.

(** ** Vocabulary of the statements *)

(** The two translation directions and, for each, the key of [CACHE], the
    inner dictionary and the language codes sent to the provider. *)
Inductive direction : Type :=
| EnglishToMizo
| MizoToEnglish.

Definition direction_key (d : direction) : pyval :=
  match d with
  | EnglishToMizo => PStr "en-to-mizo"
  | MizoToEnglish => PStr "mizo-to-en"
  end.

Definition cache_of (d : direction) (s : state) : gmap string pyval :=
  match d with
  | EnglishToMizo => en_to_mizo s
  | MizoToEnglish => mizo_to_en s
  end.

Definition source_code (d : direction) : pyval :=
  match d with
  | EnglishToMizo => PStr "en"
  | MizoToEnglish => PStr "lus"
  end.

Definition target_code (d : direction) : pyval :=
  match d with
  | EnglishToMizo => PStr "lus"
  | MizoToEnglish => PStr "en"
  end.

(** The request that [translate] sends for [text] in direction [d]. *)
Definition call_for (api_key : string) (d : direction) (text : string) : call :=
  {| q := PStr text; source := source_code d; target := target_code d;
     key := api_key; format := "text" |}.

(** The state after one more request was sent. *)
Definition logged (c : call) (s : state) : state :=
  {| en_to_mizo := en_to_mizo s; mizo_to_en := mizo_to_en s;
     sent := sent s ++ [c] |}.

(** The state after an entry was written in the cache of [d]. *)
Definition stored (d : direction) (k : string) (v : pyval) (s : state) : state :=
  match d with
  | EnglishToMizo =>
      {| en_to_mizo := <[k := v]> (en_to_mizo s); mizo_to_en := mizo_to_en s;
         sent := sent s |}
  | MizoToEnglish =>
      {| en_to_mizo := en_to_mizo s; mizo_to_en := <[k := v]> (mizo_to_en s);
         sent := sent s |}
  end.

(** The first translated text of a provider payload, where the nested
    structure [{"data": {"translations": [{"translatedText": t}, ...]}}]
    is there. *)
Definition first_translated_text (body : pyval) : option pyval :=
  match body with
  | PDict top =>
      match dict_lookup "data" top with
      | Some (PDict data) =>
          match dict_lookup "translations" data with
          | Some (PList (PDict first :: _)) => dict_lookup "translatedText" first
          | _ => None
          end
      | _ => None
      end
  | _ => None
  end.

(** What the translation client makes of the provider's answer. *)
Definition client_result (r : post_result) : pyval :=
  match r with
  | Failed => PNone
  | Replied resp =>
      if status_code resp =? 200 then
        match json resp with
        | Some body =>
            match first_translated_text body with
            | Some t => t
            | None => PNone
            end
        | None => PNone
        end
      else PNone
  end.

(** The three ways a provider call fails: the transport raises, the status
    is not 200, the payload is not JSON or lacks the nested structure. *)
Definition provider_failure (r : post_result) : Prop :=
  match r with
  | Failed => True
  | Replied resp =>
      status_code resp ≠ 200 ∨
      json resp = None ∨
      ∃ body, json resp = Some body ∧ first_translated_text body = None
  end.

(** The two single-word routes. *)
Definition single_route (provider : list call -> call -> post_result)
    (api_key : string) (d : direction) : pyval -> M (pyval * Z) :=
  match d with
  | EnglishToMizo => api_translate_english provider api_key
  | MizoToEnglish => api_translate_mizo provider api_key
  end.

(** The success payload of a single-word route. *)
Definition single_payload (d : direction) (word : string) (translation : pyval)
    (cached : bool) : pyval :=
  match d with
  | EnglishToMizo =>
      PDict [("english", PStr word); ("mizo", translation);
             ("direction", PStr "english-to-mizo");
             ("model", PStr "Google Cloud Translate");
             ("cached", PBool cached); ("success", PBool true)]
  | MizoToEnglish =>
      PDict [("mizo", PStr word); ("english", translation);
             ("direction", PStr "mizo-to-english");
             ("model", PStr "Google Cloud Translate");
             ("cached", PBool cached); ("success", PBool true)]
  end.

(** The entry that the batch route appends for a translated word. *)
Definition batch_entry (direction word translation : pyval) : pyval :=
  PDict [("input", word); ("output", translation); ("direction", direction)].

(** [translate] called on each word in turn; the list of what it returned. *)
Fixpoint translate_each (provider : list call -> call -> post_result)
    (api_key : string) (words : list pyval) (direction : pyval)
    : M (list pyval) :=
  match words with
  | [] => ret []
  | word :: rest =>
      let* translation := translate provider api_key word direction in
      let* others := translate_each provider api_key rest direction in
      ret (translation :: others)
  end.

(** The entries of the words whose translation is truthy, in order. *)
Fixpoint successes (direction : pyval) (words translations : list pyval)
    : list pyval :=
  match words, translations with
  | word :: words', translation :: translations' =>
      if truthy translation
      then batch_entry direction word translation ::
           successes direction words' translations'
      else successes direction words' translations'
  | _, _ => []
  end.

(** The success payload of the batch route. *)
Definition batch_payload (results : list pyval) : pyval :=
  PDict [("translations", PList results);
         ("count", PInt (Z.of_nat (length results)));
         ("model", PStr "Google Cloud Translate");
         ("success", PBool true)].

(** The [direction] that the batch route reads from the body. *)
Definition batch_direction (items : list (string * pyval)) : pyval :=
  match dict_lookup "direction" items with
  | Some v => v
  | None => PStr "mizo-to-en"
  end.

Definition is_str (v : pyval) : bool :=
  match v with
  | PStr _ => true
  | _ => false
  end.

(** The values that can be a dictionary key. *)
Definition hashable (v : pyval) : bool :=
  match v with
  | PList _ | PDict _ => false
  | _ => true
  end.

(** The payload of the 500 reply. *)
Definition translation_failed_payload : pyval :=
  PDict [("error", PStr "Translation failed"); ("success", PBool false)].

(** *** Requests and calls, one after the other *)

Inductive request : Type :=
| PostTranslateMizo (data : pyval)
| PostTranslateEnglish (data : pyval)
| PostBatchTranslate (data : pyval)
| GetStatus
| PostClearCache.

Definition serve (provider : list call -> call -> post_result)
    (api_key : string) (r : request) : M (pyval * Z) :=
  match r with
  | PostTranslateMizo data => api_translate_mizo provider api_key data
  | PostTranslateEnglish data => api_translate_english provider api_key data
  | PostBatchTranslate data => api_batch_translate provider api_key data
  | GetStatus => api_status api_key
  | PostClearCache => api_clear_cache
  end.

Definition is_clear (r : request) : bool :=
  match r with
  | PostClearCache => true
  | _ => false
  end.

(** What happens in the process, one thing after the other: a call of
    [translate] (the batch route makes several) or a whole request. *)
Inductive action : Type :=
| Translate (text direction : pyval)
| Serve (r : request).

Definition perform (provider : list call -> call -> post_result)
    (api_key : string) (a : action) (s : state) : state :=
  match a with
  | Translate text direction => snd (translate provider api_key text direction s)
  | Serve r => snd (serve provider api_key r s)
  end.

Fixpoint perform_all (provider : list call -> call -> post_result)
    (api_key : string) (acts : list action) (s : state) : state :=
  match acts with
  | [] => s
  | a :: acts' => perform_all provider api_key acts' (perform provider api_key a s)
  end.

Definition clears (a : action) : bool :=
  match a with
  | Serve r => is_clear r
  | Translate _ _ => false
  end.

(** Every entry of [s] is still there, unchanged, in [s']. *)
Definition entries_kept (s s' : state) : Prop :=
  ∀ d k v, cache_of d s !! k = Some v -> cache_of d s' !! k = Some v.

(** A computation that removes or overwrites no entry. *)
Definition keeps {A} (m : M A) : Prop :=
  ∀ s, entries_kept s (snd (m s)).

(** The sentence "once a pair was translated, no later call of [translate]
    on it sends a request and each returns the first result", read over
    everything the process may do in between. *)
Definition memoised_for_life (provider : list call -> call -> post_result)
    (api_key : string) : Prop :=
  ∀ (d : direction) (text text' : string) (s s1 : state) (v : pyval)
    (acts : list action),
    translate provider api_key (PStr text) (direction_key d) s = (Return v, s1) ->
    truthy v = true ->
    lower text' = lower text ->
    let s2 := perform_all provider api_key acts s1 in
    translate provider api_key (PStr text') (direction_key d) s2 = (Return v, s2).

(** *** Providers used in the examples *)

(** A well-formed 200 reply whose first translated text is [t]. *)
Definition reply_with (t : string) : response :=
  {| status_code := 200;
     json := Some (PDict [("data",
              PDict [("translations",
                PList [PDict [("translatedText", PStr t)]])])]) |}.

(** Translates every text to "chibai". *)
Definition chibai_provider : list call -> call -> post_result :=
  fun _ _ => Replied (reply_with "chibai").

(** Is unreachable. *)
Definition unreachable_provider : list call -> call -> post_result :=
  fun _ _ => Failed.

(** Answers every request with status 403 and a JSON error body. *)
Definition forbidden_provider : list call -> call -> post_result :=
  fun _ _ => Replied {| status_code := 403;
                        json := Some (PDict [("error", PStr "forbidden")]) |}.

(** Translates the texts that start with a lower-case "a" and fails with
    status 500 on the others. *)
Definition picky_provider : list call -> call -> post_result :=
  fun _ c =>
    match q c with
    | PStr (String "a" _) => Replied (reply_with "ok")
    | _ => Replied {| status_code := 500; json := None |}
    end.

(** Twenty-five distinct words, "w" followed by a letter. *)
Definition words25 : list pyval :=
  map (fun n => PStr (String "w" (String (ascii_of_nat (97 + n)) EmptyString)))
      (seq 0 25).

(** ** Vocabulary of the further properties *)

Definition other (d : direction) : direction :=
  match d with
  | EnglishToMizo => MizoToEnglish
  | MizoToEnglish => EnglishToMizo
  end.

Definition is_dict (v : pyval) : bool :=
  match v with
  | PDict _ => true
  | _ => false
  end.

(** A computation all of whose runs relate the state before to the state
    after by [R]. *)
Definition respects (R : state -> state -> Prop) {A} (m : M A) : Prop :=
  ∀ s, R s (snd (m s)).

(** [I] is kept: it holds after whenever it held before. *)
Definition preserved (I : state -> Prop) (s s' : state) : Prop := I s -> I s'.

(** Every cached translation is truthy. *)
Definition values_truthy (s : state) : Prop :=
  ∀ d k v, cache_of d s !! k = Some v -> truthy v = true.

(** Every cache key is in lower case. *)
Definition keys_lowered (s : state) : Prop :=
  ∀ d k, is_Some (cache_of d s !! k) -> lower k = k.

(** A request as the server builds them: a string to translate from English
    to Mizo or back, with the configured key and the text format. *)
Definition well_formed_call (api_key : string) (c : call) : Prop :=
  ∃ d text, c = call_for api_key d text.

Definition calls_well_formed (api_key : string) (s : state) : Prop :=
  Forall (well_formed_call api_key) (sent s).

(** The state after [m] has the requests of the state before and at most
    [n] more. *)
Definition sends_at_most (n : nat) {A} (m : M A) : Prop :=
  ∀ s, ∃ more, sent (snd (m s)) = sent s ++ more ∧ (length more <= n)%nat.

(** How many provider requests a request may cost. *)
Definition budget (r : request) : nat :=
  match r with
  | PostTranslateMizo _ | PostTranslateEnglish _ => 1
  | PostBatchTranslate _ => 20
  | GetStatus | PostClearCache => 0
  end.

(** *** Start of the process

    [os.getenv('GOOGLE_API_KEY')] is a string or [None]; the module exits
    with status 1 unless the key is truthy, and otherwise serves with the
    empty [CACHE]. *)
Inductive boot : Type :=
| Exited (code : Z)
| Serving (api_key : string) (s : state).

Definition startup (getenv : option string) : boot :=
  match getenv with
  | Some api_key =>
      if negb (truthy (PStr api_key)) then Exited 1 else Serving api_key initial
  | None => Exited 1
  end.

(** A provider that fails on its first request and translates afterwards. *)
Definition flaky_provider : list call -> call -> post_result :=
  fun before _ =>
    match before with
    | [] => Failed
    | _ :: _ => Replied (reply_with "chibai")
    end.

(** ** The string methods on examples *)

Example lower_Tlawm : lower "Tlawm" = "tlawm".
Proof. reflexivity. Qed.

Example lower_keeps_the_rest : lower "a-B c9[" = "a-b c9[".
Proof. reflexivity. Qed.

Example strip_both_ends : strip "  hello world 	" = "hello world".
Proof. reflexivity. Qed.

Example strip_blank : strip "   " = "".
Proof. reflexivity. Qed.

Example truthy_empty_str : truthy (PStr "") = false.
Proof. reflexivity. Qed.

Example first_translated_text_chibai :
  first_translated_text
    (PDict [("data", PDict [("translations",
       PList [PDict [("translatedText", PStr "chibai")]])])]) =
  Some (PStr "chibai").
Proof. reflexivity. Qed.

Example first_translated_text_empty_list :
  first_translated_text
    (PDict [("data", PDict [("translations", PList [])])]) = None.
Proof. reflexivity. Qed.

(** ** The translation client *)

Section Client.

Variable provider : list call -> call -> post_result.
Variable GOOGLE_API_KEY : string.

(** The client never raises: whatever the provider does, it returns the
    first translated text of a well-formed 200 reply and [None] otherwise,
    after exactly one request. *)
Lemma translate_with_google_spec (text source_lang target_lang : pyval) (s : state) :
  let c := {| q := text; source := source_lang; target := target_lang;
              key := GOOGLE_API_KEY; format := "text" |} in
  translate_with_google provider GOOGLE_API_KEY text source_lang target_lang s =
  (Return (client_result (provider (sent s) c)), logged c s).
Proof.
  unfold translate_with_google, try_except, bind, lift, ret, client_result, logged.
  simpl.
  destruct (provider _ _) as [|[code body]]; simpl; [done|].
  destruct (code =? 200); [|done].
  destruct body as [body|]; simpl; [|done].
  destruct body as [| | | |l|top]; simpl; try done.
  - destruct (str_contains _ _); done.
  - destruct (existsb _ l); done.
  - destruct (dict_lookup "data" top) as [data|]; simpl; [|done].
    destruct data as [| | | |l|data]; simpl; try done.
    + destruct (str_contains _ _); done.
    + destruct (existsb _ l); done.
    + destruct (dict_lookup "translations" data) as [ts|]; simpl; [|done].
      destruct ts as [| | |t|ts|ts]; simpl; try done.
      * destruct t; done.
      * destruct ts as [|first ts]; simpl; [done|].
        destruct first as [| | | | |first]; simpl; try done.
        destruct (dict_lookup "translatedText" first); done.
Qed.

End Client.

(** ** The orchestrator *)

Section Orchestrator.

Variable provider : list call -> call -> post_result.
Variable GOOGLE_API_KEY : string.

(** [translate] on a string and one of the two directions: a hit returns
    the entry and leaves the state alone, a miss sends one request and
    stores the answer when it is truthy. *)
Lemma translate_spec (d : direction) (text : string) (s : state) :
  translate provider GOOGLE_API_KEY (PStr text) (direction_key d) s =
  match cache_of d s !! lower text with
  | Some cached => (Return cached, s)
  | None =>
      let c := call_for GOOGLE_API_KEY d text in
      let result := client_result (provider (sent s) c) in
      (Return result,
       if truthy result then stored d (lower text) result (logged c s)
       else logged c s)
  end.
Proof.
  destruct d; unfold translate, bind, lift, ret; simpl;
    (destruct (_ !! lower text) as [cached|]; [done|]);
    simpl; rewrite translate_with_google_spec; simpl;
    destruct (truthy _); done.
Qed.

(** A direction is one of the two keys of [CACHE], or [CACHE[direction]]
    raises and leaves the state alone. *)
Lemma CACHE_getitem_cases (v : pyval) (s : state) :
  (∃ d, v = direction_key d) ∨
  (hashable v = true ∧ CACHE_getitem v s = (Raise KeyError, s)) ∨
  (hashable v = false ∧ CACHE_getitem v s = (Raise TypeError, s)).
Proof.
  destruct v as [| | |k| |]; simpl; auto.
  destruct (String.eqb_spec k "en-to-mizo") as [->|_];
    [left; by exists EnglishToMizo|].
  destruct (String.eqb_spec k "mizo-to-en") as [->|_];
    [left; by exists MizoToEnglish|].
  auto.
Qed.

(** On any arguments [translate] either raises before it touches anything,
    or was called on a string and a key of [CACHE]. *)
Lemma translate_cases (text direction : pyval) (s : state) :
  (∃ e, translate provider GOOGLE_API_KEY text direction s = (Raise e, s)) ∨
  (∃ d t, text = PStr t ∧ direction = direction_key d).
Proof.
  destruct text as [| | |t| |];
    try (left; exists AttributeError; reflexivity).
  destruct (CACHE_getitem_cases direction s) as [[d ->]|[[_ H]|[_ H]]].
  - right; eauto.
  - left; exists KeyError. unfold translate, bind, lift; simpl. by rewrite H.
  - left; exists TypeError. unfold translate, bind, lift; simpl. by rewrite H.
Qed.

(** A string in a direction that is no key of [CACHE]: [KeyError], before
    any request is sent. *)
Lemma translate_KeyError (text : string) (direction : pyval) (s : state) :
  hashable direction = true ->
  direction ≠ PStr "mizo-to-en" ->
  direction ≠ PStr "en-to-mizo" ->
  translate provider GOOGLE_API_KEY (PStr text) direction s = (Raise KeyError, s).
Proof.
  intros Hh Hm He.
  destruct (CACHE_getitem_cases direction s) as [[d ->]|[[_ H]|[H _]]].
  - by destruct d.
  - unfold translate, bind, lift; simpl. by rewrite H.
  - congruence.
Qed.

(** *** Entries are only ever added *)

Lemma entries_kept_refl (s : state) : entries_kept s s.
Proof. by intros d k v. Qed.

Lemma entries_kept_trans (s1 s2 s3 : state) :
  entries_kept s1 s2 -> entries_kept s2 s3 -> entries_kept s1 s3.
Proof. intros H12 H23 d k v H. by apply H23, H12. Qed.

Lemma translate_keeps (text direction : pyval) (s : state) :
  entries_kept s (snd (translate provider GOOGLE_API_KEY text direction s)).
Proof.
  destruct (translate_cases text direction s) as [[e ->]|(d & t & -> & ->)];
    [apply entries_kept_refl|].
  rewrite translate_spec.
  destruct (cache_of d s !! lower t) as [cached|] eqn:Hmiss;
    [apply entries_kept_refl|].
  simpl. destruct (truthy _); [|by intros [] k v].
  intros d' k v Hk.
  destruct d, d'; simpl in *; try done;
    (destruct (decide (lower t = k)) as [<-|Hne];
     [congruence | by rewrite lookup_insert_ne]).
Qed.

End Orchestrator.

(** ** Computations that keep the entries *)

Section Keeps.

Variable provider : list call -> call -> post_result.
Variable GOOGLE_API_KEY : string.

Lemma keeps_ret {A} (a : A) : keeps (ret a).
Proof. intros s. apply entries_kept_refl. Qed.

Lemma keeps_raise {A} (e : exn) : keeps (@raise A e).
Proof. intros s. apply entries_kept_refl. Qed.

Lemma keeps_lift {A} (o : outcome A) : keeps (lift o).
Proof. intros s. apply entries_kept_refl. Qed.

Lemma keeps_bind {A B} (m : M A) (f : A -> M B) :
  keeps m -> (∀ a, keeps (f a)) -> keeps (bind m f).
Proof.
  intros Hm Hf s. unfold bind.
  specialize (Hm s). destruct (m s) as [[a|e] s1]; simpl in *; [|done].
  eapply entries_kept_trans; [exact Hm | apply Hf].
Qed.

Lemma keeps_CACHE_getitem (direction : pyval) : keeps (CACHE_getitem direction).
Proof.
  intros s. unfold CACHE_getitem.
  destruct direction as [| | |k| |]; try apply entries_kept_refl.
  destruct (String.eqb k _); [apply entries_kept_refl|].
  destruct (String.eqb k _); apply entries_kept_refl.
Qed.

Lemma keeps_translate (text direction : pyval) :
  keeps (translate provider GOOGLE_API_KEY text direction).
Proof. intros s. apply translate_keeps. Qed.

Lemma keeps_batch_loop (words : list pyval) (direction : pyval) :
  ∀ results, keeps (batch_loop provider GOOGLE_API_KEY words direction results).
Proof.
  induction words as [|word rest IH]; intros results; simpl.
  - apply keeps_ret.
  - apply keeps_bind; [apply keeps_translate | intros translation; apply IH].
Qed.

Create HintDb keeps.

#[local] Hint Resolve keeps_ret keeps_raise keeps_lift keeps_CACHE_getitem
  keeps_translate keeps_batch_loop : keeps.

Ltac keeps_step :=
  first
    [ solve [ auto with keeps ]
    | apply keeps_bind; [| intros ? ]
    | match goal with |- keeps (if ?b then _ else _) => destruct b end
    | match goal with |- keeps (match ?v with _ => _ end) => destruct v end ].

Lemma keeps_api_translate_mizo (data : pyval) :
  keeps (api_translate_mizo provider GOOGLE_API_KEY data).
Proof. unfold api_translate_mizo. repeat keeps_step. Qed.

Lemma keeps_api_translate_english (data : pyval) :
  keeps (api_translate_english provider GOOGLE_API_KEY data).
Proof. unfold api_translate_english. repeat keeps_step. Qed.

Lemma keeps_api_batch_translate (data : pyval) :
  keeps (api_batch_translate provider GOOGLE_API_KEY data).
Proof. unfold api_batch_translate. repeat keeps_step. Qed.

Lemma keeps_api_status : keeps (api_status GOOGLE_API_KEY).
Proof. unfold api_status. repeat keeps_step. Qed.

(** Whatever the process does, short of clearing the cache, keeps the
    entries. *)
Lemma perform_keeps (a : action) (s : state) :
  clears a = false ->
  entries_kept s (perform provider GOOGLE_API_KEY a s).
Proof.
  destruct a as [text direction|r]; simpl; intros Hc.
  - apply translate_keeps.
  - destruct r; simpl in *; try done.
    + apply keeps_api_translate_mizo.
    + apply keeps_api_translate_english.
    + apply keeps_api_batch_translate.
    + apply keeps_api_status.
Qed.

Lemma perform_all_keeps (acts : list action) :
  ∀ s, forallb (fun a => negb (clears a)) acts = true ->
       entries_kept s (perform_all provider GOOGLE_API_KEY acts s).
Proof.
  induction acts as [|a acts IH]; intros s Hall; simpl in *.
  - apply entries_kept_refl.
  - apply andb_true_iff in Hall as [Ha Hall].
    apply negb_true_iff in Ha.
    eapply entries_kept_trans; [by apply perform_keeps | by apply IH].
Qed.

End Keeps.

(** ** The single-word routes *)

Section Single.

Variable provider : list call -> call -> post_result.
Variable GOOGLE_API_KEY : string.

(** A route given a non-blank word hands the stripped word to [translate]
    and wraps what comes back. *)
Lemma single_route_spec (d : direction) (items : list (string * pyval))
    (w : string) (s : state) :
  dict_lookup "word" items = Some (PStr w) ->
  strip w ≠ "" ->
  single_route provider GOOGLE_API_KEY d (PDict items) s =
  match translate provider GOOGLE_API_KEY (PStr (strip w)) (direction_key d) s with
  | (Return v, s') =>
      if truthy v
      then (Return (single_payload d (strip w) v
                      (bool_decide (is_Some (cache_of d s' !! lower (strip w)))),
                    200), s')
      else (Return (translation_failed_payload, 500), s')
  | (Raise e, s') => (Raise e, s')
  end.
Proof.
  intros Hw Hne.
  assert (Hblank : String.eqb (strip w) "" = false)
    by (by destruct (String.eqb_spec (strip w) "")).
  destruct d;
    unfold single_route, api_translate_english, api_translate_mizo, direction_key;
    unfold bind at 1, lift at 1, py_get; rewrite Hw;
    unfold bind at 1, lift at 1, py_strip;
    unfold truthy at 1; rewrite Hblank; cbn [negb];
    unfold bind at 1;
    match goal with |- context [translate ?p ?k ?t ?dk s] =>
      destruct (translate p k t dk s) as [[v|e] s'] end;
    try reflexivity;
    destruct (truthy v); reflexivity.
Qed.

(** A translation that the route reports as a success is in the cache by
    the time the route computes the [cached] flag. *)
Lemma translate_leaves_entry (d : direction) (text : string) (s s' : state)
    (v : pyval) :
  translate provider GOOGLE_API_KEY (PStr text) (direction_key d) s = (Return v, s') ->
  truthy v = true ->
  cache_of d s' !! lower text = Some v.
Proof.
  rewrite translate_spec.
  destruct (cache_of d s !! lower text) as [cached|] eqn:Hlook.
  - by intros [= -> ->] _.
  - simpl. intros [= <- <-] ->. destruct d; simpl; apply lookup_insert_eq.
Qed.

(** Every success reply of a single-word route says [cached: true]. *)
Lemma single_route_cached_flag (d : direction) (items : list (string * pyval))
    (w : string) (s s' : state) (body : pyval) :
  dict_lookup "word" items = Some (PStr w) ->
  strip w ≠ "" ->
  single_route provider GOOGLE_API_KEY d (PDict items) s = (Return (body, 200), s') ->
  dict_lookup "cached"
    (match body with PDict fields => fields | _ => [] end) = Some (PBool true).
Proof.
  intros Hw Hne. rewrite (single_route_spec d items w s Hw Hne).
  destruct (translate _ _ _ _ s) as [[v|e] s1] eqn:Htr; [|done].
  destruct (truthy v) eqn:Hv; [|done].
  intros [= <- <-].
  rewrite (translate_leaves_entry d _ s s1 v Htr Hv).
  by destruct d.
Qed.

(** C7. A single-word route whose [word] is missing, empty or blank
    answers 400 with [success: false]; the state is the one before, so
    nothing was translated and no request went to the provider. *)
Theorem blank_word_rejected (d : direction) (items : list (string * pyval))
    (s : state) :
  (dict_lookup "word" items = None ∨
   ∃ w, dict_lookup "word" items = Some (PStr w) ∧ strip w = "") ->
  single_route provider GOOGLE_API_KEY d (PDict items) s =
  (Return (PDict [("error", PStr "No word provided");
                  ("success", PBool false)], 400), s).
Proof.
  intros [Hnone|(w & Hw & Hblank)];
    destruct d; unfold single_route, api_translate_english, api_translate_mizo;
    unfold bind at 1, lift at 1, py_get.
  1,2: by rewrite Hnone.
  all: rewrite Hw; unfold bind at 1, lift at 1, py_strip; by rewrite Hblank.
Qed.

(** C4. When the provider call of a single-word request fails (transport
    exception, status other than 200, payload that is not JSON or lacks
    the translation), the client returns [None] without raising, both
    caches are as before and the route answers 500 with [success: false]. *)
Theorem provider_failure_is_500 (d : direction) (items : list (string * pyval))
    (w : string) (s : state) :
  dict_lookup "word" items = Some (PStr w) ->
  strip w ≠ "" ->
  cache_of d s !! lower (strip w) = None ->
  provider_failure (provider (sent s) (call_for GOOGLE_API_KEY d (strip w))) ->
  ∃ s',
    translate_with_google provider GOOGLE_API_KEY
      (PStr (strip w)) (source_code d) (target_code d) s = (Return PNone, s') ∧
    single_route provider GOOGLE_API_KEY d (PDict items) s =
      (Return (PDict [("error", PStr "Translation failed");
                      ("success", PBool false)], 500), s') ∧
    en_to_mizo s' = en_to_mizo s ∧
    mizo_to_en s' = mizo_to_en s ∧
    sent s' = (sent s ++ [call_for GOOGLE_API_KEY d (strip w)])%list.
Proof.
  intros Hw Hne Hmiss Hfail.
  assert (Hres : client_result
            (provider (sent s) (call_for GOOGLE_API_KEY d (strip w))) = PNone).
  { unfold client_result.
    destruct (provider _ _) as [|resp]; [done|]. simpl in Hfail.
    destruct (Z.eqb_spec (status_code resp) 200) as [Hok|_]; [|done].
    destruct Hfail as [Hcode|[Hjson|(body & Hjson & Hbody)]]; [done| |];
      rewrite Hjson; [done|]. by rewrite Hbody. }
  exists (logged (call_for GOOGLE_API_KEY d (strip w)) s).
  split; [|split; [|done]].
  - rewrite translate_with_google_spec.
    unfold call_for in Hres. by rewrite Hres.
  - rewrite (single_route_spec d items w s Hw Hne), translate_spec, Hmiss.
    simpl. by rewrite Hres.
Qed.

End Single.

(** C1 (the code departs from it). The first request for "hello" goes to
    the provider (one request is sent, the entry is written) and yet the
    reply says [cached: true]: the flag is read from the cache after
    [translate] has stored the fresh result. *)
Theorem fresh_translation_reports_cached :
  api_translate_english chibai_provider "secret"
    (PDict [("word", PStr "hello")]) initial =
  (Return (PDict [("english", PStr "hello");
                  ("mizo", PStr "chibai");
                  ("direction", PStr "english-to-mizo");
                  ("model", PStr "Google Cloud Translate");
                  ("cached", PBool true);
                  ("success", PBool true)], 200),
   {| en_to_mizo := {[ "hello" := PStr "chibai" ]};
      mizo_to_en := ∅;
      sent := [ {| q := PStr "hello"; source := PStr "en"; target := PStr "lus";
                   key := "secret"; format := "text" |} ] |}).
Proof. vm_compute. reflexivity. Qed.

Lemma blank_word_rejected_witness :
  single_route unreachable_provider "secret" MizoToEnglish
    (PDict [("word", PStr "   ")]) initial =
  (Return (PDict [("error", PStr "No word provided");
                  ("success", PBool false)], 400), initial).
Proof.
  apply (blank_word_rejected unreachable_provider "secret" MizoToEnglish
           [("word", PStr "   ")] initial).
  right. exists "   ". split; reflexivity.
Defined.

Lemma provider_failure_is_500_witness :
  ∃ s',
    translate_with_google forbidden_provider "secret"
      (PStr "tlawm") (PStr "lus") (PStr "en") initial = (Return PNone, s') ∧
    single_route forbidden_provider "secret" MizoToEnglish
      (PDict [("word", PStr " tlawm ")]) initial =
      (Return (PDict [("error", PStr "Translation failed");
                      ("success", PBool false)], 500), s') ∧
    en_to_mizo s' = ∅ ∧
    mizo_to_en s' = ∅ ∧
    sent s' = ([] ++ [call_for "secret" MizoToEnglish "tlawm"])%list.
Proof.
  apply (provider_failure_is_500 forbidden_provider "secret" MizoToEnglish
           [("word", PStr " tlawm ")] " tlawm " initial).
  - reflexivity.
  - discriminate.
  - reflexivity.
  - left. discriminate.
Defined.

(** ** The cache across calls *)

Section Cache.

Variable provider : list call -> call -> post_result.
Variable GOOGLE_API_KEY : string.

(** A text whose lower-cased form has an entry is served from it. *)
Lemma translate_hit (d : direction) (text : string) (s : state) (v : pyval) :
  cache_of d s !! lower text = Some v ->
  translate provider GOOGLE_API_KEY (PStr text) (direction_key d) s = (Return v, s).
Proof. intros H. by rewrite translate_spec, H. Qed.

(** C9. Cache keys do not depend on letter case: once a text is
    translated, every text with the same lower-cased form (as "Tlawm" and
    "tlawm") is a hit in that direction: the same translation comes back
    and the state, the list of requests sent included, does not change. *)
Theorem cache_keys_ignore_case (d : direction) (text text' : string)
    (s s1 : state) (v : pyval) :
  lower text' = lower text ->
  translate provider GOOGLE_API_KEY (PStr text) (direction_key d) s = (Return v, s1) ->
  truthy v = true ->
  cache_of d s1 !! lower text' = Some v ∧
  translate provider GOOGLE_API_KEY (PStr text') (direction_key d) s1 = (Return v, s1).
Proof.
  intros Hlow Htr Hv.
  assert (Hentry : cache_of d s1 !! lower text' = Some v)
    by (rewrite Hlow; by eapply translate_leaves_entry).
  split; [done | by apply translate_hit].
Qed.

(** C2, as amended. Once a pair was translated, and for as long as the
    cache is not cleared, whatever calls and requests come in between, a
    call of [translate] on a text with the same lower-cased form in the
    same direction returns the first result and sends nothing. *)
Theorem memoised_until_cleared (d : direction) (text text' : string)
    (s s1 : state) (v : pyval) (acts : list action) :
  translate provider GOOGLE_API_KEY (PStr text) (direction_key d) s = (Return v, s1) ->
  truthy v = true ->
  lower text' = lower text ->
  forallb (fun a => negb (clears a)) acts = true ->
  let s2 := perform_all provider GOOGLE_API_KEY acts s1 in
  translate provider GOOGLE_API_KEY (PStr text') (direction_key d) s2 = (Return v, s2) ∧
  sent (snd (translate provider GOOGLE_API_KEY (PStr text') (direction_key d) s2)) =
    sent s2.
Proof.
  intros Htr Hv Hlow Hacts s2.
  assert (Hhit : translate provider GOOGLE_API_KEY (PStr text') (direction_key d) s2
                 = (Return v, s2)).
  { apply translate_hit.
    apply (perform_all_keeps provider GOOGLE_API_KEY acts s1 Hacts).
    rewrite Hlow. by eapply translate_leaves_entry. }
  split; [done | by rewrite Hhit].
Qed.

(** C8. Clearing empties both caches and sends nothing; the status route
    then reports both sizes as zero, and the next translation of any text,
    in either direction, sends a request to the provider. *)
Theorem clear_cache_wipes_both (s : state) :
  ∃ s',
    api_clear_cache s =
      (Return (PDict [("message", PStr "Cache cleared");
                      ("success", PBool true)], 200), s') ∧
    en_to_mizo s' = ∅ ∧ mizo_to_en s' = ∅ ∧ sent s' = sent s ∧
    (∃ body,
       api_status GOOGLE_API_KEY s' = (Return (body, 200), s') ∧
       py_getitem_str body "cache_size" =
         Return (PDict [("mizo_to_english", PInt 0);
                        ("english_to_mizo", PInt 0)])) ∧
    (∀ (d : direction) (text : string),
       ∃ v s'',
         translate provider GOOGLE_API_KEY (PStr text) (direction_key d) s' =
           (Return v, s'') ∧
         sent s'' = (sent s' ++ [call_for GOOGLE_API_KEY d text])%list).
Proof.
  exists {| en_to_mizo := ∅; mizo_to_en := ∅; sent := sent s |}.
  repeat split.
  - eexists. split; reflexivity.
  - intros d text. rewrite translate_spec.
    assert (Hmiss : cache_of d {| en_to_mizo := ∅; mizo_to_en := ∅; sent := sent s |}
                      !! lower text = None) by (by destruct d).
    rewrite Hmiss. simpl. do 2 eexists. split; [reflexivity|].
    destruct (truthy _); [by destruct d | done].
Qed.

End Cache.

Lemma cache_keys_ignore_case_witness :
  cache_of MizoToEnglish
    {| en_to_mizo := ∅; mizo_to_en := {[ "tlawm" := PStr "chibai" ]};
       sent := [call_for "secret" MizoToEnglish "Tlawm"] |}
    !! lower "tlawm" = Some (PStr "chibai") ∧
  translate chibai_provider "secret" (PStr "tlawm") (PStr "mizo-to-en")
    {| en_to_mizo := ∅; mizo_to_en := {[ "tlawm" := PStr "chibai" ]};
       sent := [call_for "secret" MizoToEnglish "Tlawm"] |} =
  (Return (PStr "chibai"),
   {| en_to_mizo := ∅; mizo_to_en := {[ "tlawm" := PStr "chibai" ]};
      sent := [call_for "secret" MizoToEnglish "Tlawm"] |}).
Proof.
  apply (cache_keys_ignore_case chibai_provider "secret" MizoToEnglish
           "Tlawm" "tlawm" initial).
  - reflexivity.
  - vm_compute. reflexivity.
  - reflexivity.
Defined.

Lemma memoised_until_cleared_witness :
  let acts := [Serve (PostTranslateMizo (PDict [("word", PStr "hello")]));
               Serve GetStatus;
               Translate (PStr "tlawm") (PStr "en-to-mizo")] in
  let s1 := snd (translate chibai_provider "secret" (PStr "Hello")
                   (PStr "en-to-mizo") initial) in
  let s2 := perform_all chibai_provider "secret" acts s1 in
  translate chibai_provider "secret" (PStr "hello") (PStr "en-to-mizo") s2 =
    (Return (PStr "chibai"), s2) ∧
  sent (snd (translate chibai_provider "secret" (PStr "hello")
               (PStr "en-to-mizo") s2)) = sent s2.
Proof.
  apply (memoised_until_cleared chibai_provider "secret" EnglishToMizo
           "Hello" "hello" initial).
  - vm_compute. reflexivity.
  - reflexivity.
  - reflexivity.
  - reflexivity.
Defined.

(** C2, as stated, fails: "hello" is translated, the cache is cleared, and
    the next call for "hello" sends a second request for the same pair. *)
Lemma repeat_after_clear_calls_again :
  let c := call_for "secret" EnglishToMizo "hello" in
  let s1 := snd (translate chibai_provider "secret" (PStr "hello")
                   (PStr "en-to-mizo") initial) in
  let s2 := perform_all chibai_provider "secret" [Serve PostClearCache] s1 in
  translate chibai_provider "secret" (PStr "hello") (PStr "en-to-mizo") initial =
    (Return (PStr "chibai"), s1) ∧
  sent s2 = [c] ∧
  sent (snd (translate chibai_provider "secret" (PStr "hello")
               (PStr "en-to-mizo") s2)) = [c; c] ∧
  ¬ memoised_for_life chibai_provider "secret".
Proof.
  repeat split; try (vm_compute; reflexivity).
  intros Hlife.
  specialize (Hlife EnglishToMizo "hello" "hello" initial _ _
                [Serve PostClearCache] eq_refl eq_refl eq_refl).
  apply (f_equal (fun r => length (sent (snd r)))) in Hlife.
  vm_compute in Hlife. discriminate.
Qed.

(** ** The batch route *)

Section Batch.

Variable provider : list call -> call -> post_result.
Variable GOOGLE_API_KEY : string.

(** The loop with its accumulator is [translate] on each word in turn,
    followed by the selection of the truthy results. *)
Lemma batch_loop_spec (direction : pyval) (words : list pyval) :
  ∀ (results : list pyval) (s : state),
    batch_loop provider GOOGLE_API_KEY words direction results s =
    match translate_each provider GOOGLE_API_KEY words direction s with
    | (Return translations, s') =>
        (Return (results ++ successes direction words translations), s')
    | (Raise e, s') => (Raise e, s')
    end.
Proof.
  induction words as [|word rest IH]; intros results s; simpl.
  - unfold ret. by rewrite app_nil_r.
  - unfold bind.
    destruct (translate provider GOOGLE_API_KEY word direction s)
      as [[translation|e] s1]; [|done].
    rewrite IH.
    destruct (translate_each provider GOOGLE_API_KEY rest direction s1)
      as [[translations|e] s2]; [|done].
    unfold ret. destruct (truthy translation); [|done].
    by rewrite <- app_assoc.
Qed.

(** On a string and a key of [CACHE], [translate] returns. *)
Lemma translate_total (d : direction) (text : string) (s : state) :
  ∃ v s', translate provider GOOGLE_API_KEY (PStr text) (direction_key d) s =
          (Return v, s').
Proof.
  rewrite translate_spec.
  destruct (cache_of d s !! lower text) as [cached|]; simpl; eauto.
Qed.

(** So on strings no call of [translate] raises: there is one result per
    word. *)
Lemma translate_each_total (d : direction) (words : list pyval) :
  forallb is_str words = true ->
  ∀ s, ∃ translations s',
    translate_each provider GOOGLE_API_KEY words (direction_key d) s =
      (Return translations, s') ∧
    length translations = length words.
Proof.
  induction words as [|word rest IH]; intros Hstr s.
  - by exists [], s.
  - apply andb_true_iff in Hstr as [Hword Hrest].
    destruct word as [| | |text| |]; try done.
    destruct (translate_total d text s) as (v & s1 & Htr).
    destruct (IH Hrest s1) as (translations & s' & Heach & Hlen).
    exists (v :: translations), s'.
    cbn [translate_each]. unfold bind, ret. rewrite Htr, Heach.
    simpl. by rewrite Hlen.
Qed.

Lemma successes_length (direction : pyval) (words : list pyval) :
  ∀ translations,
    length translations = length words ->
    length (successes direction words translations) =
    length (filter (fun v => truthy v = true) translations).
Proof.
  induction words as [|word rest IH]; intros [|translation translations] Hlen;
    simpl in *; try done.
  rewrite filter_cons. destruct (truthy translation) eqn:Hv.
  - rewrite decide_True by done. simpl. f_equal. apply IH. lia.
  - rewrite decide_False by done. apply IH. lia.
Qed.

(** The route on a body whose [words] is a non-empty list. *)
Lemma api_batch_translate_spec (items : list (string * pyval))
    (words : list pyval) (s : state) :
  dict_lookup "words" items = Some (PList words) ->
  words ≠ [] ->
  api_batch_translate provider GOOGLE_API_KEY (PDict items) s =
  match translate_each provider GOOGLE_API_KEY (firstn 20 words)
          (batch_direction items) s with
  | (Return translations, s') =>
      (Return (batch_payload
                 (successes (batch_direction items) (firstn 20 words) translations),
               200), s')
  | (Raise e, s') => (Raise e, s')
  end.
Proof.
  intros Hwords Hne.
  unfold api_batch_translate.
  unfold bind at 1, lift at 1, py_get. rewrite Hwords.
  unfold bind at 1, lift at 1.
  fold (batch_direction items).
  destruct words as [|word rest]; [done|].
  cbn [truthy isinstance_list negb orb].
  unfold bind. rewrite batch_loop_spec.
  destruct (translate_each _ _ _ _ s) as [[translations|e] s']; done.
Qed.

(** C5. Of a list of more than 20 words the route handles the first 20
    and nothing else: the request behaves, reply and state, as the request
    with only those 20 words; and when these are strings and the direction
    is a cache key, [translate] runs on each of the 20 in turn, once, and
    the reply is a success, whatever the items after them are. *)
Theorem batch_processes_first_20 (items : list (string * pyval))
    (words : list pyval) (s : state) :
  dict_lookup "words" items = Some (PList words) ->
  (20 < length words)%nat ->
  api_batch_translate provider GOOGLE_API_KEY (PDict items) s =
    api_batch_translate provider GOOGLE_API_KEY
      (PDict [("words", PList (firstn 20 words));
              ("direction", batch_direction items)]) s ∧
  (∀ d : direction,
     batch_direction items = direction_key d ->
     forallb is_str (firstn 20 words) = true ->
     ∃ translations s',
       translate_each provider GOOGLE_API_KEY (firstn 20 words)
         (direction_key d) s = (Return translations, s') ∧
       length translations = 20%nat ∧
       api_batch_translate provider GOOGLE_API_KEY (PDict items) s =
         (Return (batch_payload
                    (successes (direction_key d) (firstn 20 words) translations),
                  200), s')).
Proof.
  intros Hwords Hlen.
  assert (Hne : words ≠ []) by (intros ->; simpl in Hlen; lia).
  assert (Hlen20 : length (firstn 20 words) = 20%nat)
    by (rewrite length_firstn; lia).
  assert (Hne20 : firstn 20 words ≠ [])
    by (intros H0; rewrite H0 in Hlen20; discriminate).
  split.
  - rewrite (api_batch_translate_spec items words s Hwords Hne).
    rewrite (api_batch_translate_spec
               [("words", PList (firstn 20 words));
                ("direction", batch_direction items)]
               (firstn 20 words) s eq_refl Hne20).
    change (batch_direction [("words", PList (firstn 20 words));
                             ("direction", batch_direction items)])
      with (batch_direction items).
    by rewrite firstn_firstn.
  - intros d Hd Hstr.
    destruct (translate_each_total d (firstn 20 words) Hstr s)
      as (translations & s' & Heach & Hlen').
    exists translations, s'. split; [done|]. split; [congruence|].
    rewrite (api_batch_translate_spec items words s Hwords Hne), Hd.
    by rewrite Heach.
Qed.

(** C6. On a non-empty list of strings and a direction that is a cache
    key, the batch route always answers 200 with [success: true]: the
    words whose translation failed are left out of [translations], and
    [count] is the number of words whose translation succeeded, at most
    the number of words sent. *)
Theorem batch_omits_failures (d : direction) (items : list (string * pyval))
    (words : list pyval) (s : state) :
  dict_lookup "words" items = Some (PList words) ->
  words ≠ [] ->
  forallb is_str (firstn 20 words) = true ->
  batch_direction items = direction_key d ->
  ∃ translations results s',
    translate_each provider GOOGLE_API_KEY (firstn 20 words)
      (direction_key d) s = (Return translations, s') ∧
    results = successes (direction_key d) (firstn 20 words) translations ∧
    api_batch_translate provider GOOGLE_API_KEY (PDict items) s =
      (Return (PDict [("translations", PList results);
                      ("count", PInt (Z.of_nat (length results)));
                      ("model", PStr "Google Cloud Translate");
                      ("success", PBool true)], 200), s') ∧
    length results = length (filter (fun v => truthy v = true) translations) ∧
    (length results <= length words)%nat.
Proof.
  intros Hwords Hne Hstr Hd.
  destruct (translate_each_total d (firstn 20 words) Hstr s)
    as (translations & s' & Heach & Hlen).
  exists translations, (successes (direction_key d) (firstn 20 words) translations), s'.
  split; [done|]. split; [done|]. split.
  - rewrite (api_batch_translate_spec items words s Hwords Hne), Hd.
    by rewrite Heach.
  - rewrite (successes_length _ _ _ Hlen). split; [done|].
    etrans; [apply length_filter|]. rewrite Hlen, length_firstn. lia.
Qed.

(** C10. The batch route does not check [direction]: given a list that
    starts with a string and a direction (a string, a number, a boolean or
    null) that is neither 'mizo-to-en' nor 'en-to-mizo', the lookup
    [CACHE[direction]] of the first call of [translate] raises [KeyError];
    nothing catches it, so the route gives no reply of its own, the 400 of
    an invalid body included, and the state is untouched. *)
Theorem batch_unknown_direction_raises (items : list (string * pyval))
    (word : string) (rest : list pyval) (s : state) :
  dict_lookup "words" items = Some (PList (PStr word :: rest)) ->
  hashable (batch_direction items) = true ->
  batch_direction items ≠ PStr "mizo-to-en" ->
  batch_direction items ≠ PStr "en-to-mizo" ->
  api_batch_translate provider GOOGLE_API_KEY (PDict items) s = (Raise KeyError, s).
Proof.
  intros Hwords Hhash Hm He.
  rewrite (api_batch_translate_spec items _ s Hwords) by done.
  cbn [firstn translate_each]. unfold bind at 1.
  by rewrite translate_KeyError.
Qed.

End Batch.

Lemma batch_processes_first_20_witness :
  api_batch_translate chibai_provider "secret"
    (PDict [("words", PList words25); ("direction", PStr "en-to-mizo")]) initial =
  api_batch_translate chibai_provider "secret"
    (PDict [("words", PList (firstn 20 words25));
            ("direction", PStr "en-to-mizo")]) initial ∧
  length (sent (snd (api_batch_translate chibai_provider "secret"
    (PDict [("words", PList words25); ("direction", PStr "en-to-mizo")])
    initial))) = 20%nat.
Proof.
  split.
  - apply (batch_processes_first_20 chibai_provider "secret"
             [("words", PList words25); ("direction", PStr "en-to-mizo")]
             words25 initial).
    + reflexivity.
    + vm_compute. lia.
  - vm_compute. reflexivity.
Defined.

Lemma batch_omits_failures_witness :
  ∃ translations results s',
    translate_each picky_provider "secret"
      (firstn 20 [PStr "arsi"; PStr "tlawm"; PStr "ar"])
      (direction_key MizoToEnglish) initial = (Return translations, s') ∧
    results = successes (direction_key MizoToEnglish)
                (firstn 20 [PStr "arsi"; PStr "tlawm"; PStr "ar"]) translations ∧
    api_batch_translate picky_provider "secret"
      (PDict [("words", PList [PStr "arsi"; PStr "tlawm"; PStr "ar"])]) initial =
      (Return (PDict [("translations", PList results);
                      ("count", PInt (Z.of_nat (length results)));
                      ("model", PStr "Google Cloud Translate");
                      ("success", PBool true)], 200), s') ∧
    length results = length (filter (fun v => truthy v = true) translations) ∧
    (length results <= length [PStr "arsi"; PStr "tlawm"; PStr "ar"])%nat.
Proof.
  apply (batch_omits_failures picky_provider "secret" MizoToEnglish
           [("words", PList [PStr "arsi"; PStr "tlawm"; PStr "ar"])]
           [PStr "arsi"; PStr "tlawm"; PStr "ar"] initial).
  - reflexivity.
  - discriminate.
  - reflexivity.
  - reflexivity.
Defined.

Lemma batch_unknown_direction_raises_witness :
  api_batch_translate chibai_provider "secret"
    (PDict [("words", PList [PStr "hello"]);
            ("direction", PStr "english-to-mizo")]) initial =
  (Raise KeyError, initial).
Proof.
  apply (batch_unknown_direction_raises chibai_provider "secret"
           [("words", PList [PStr "hello"]);
            ("direction", PStr "english-to-mizo")] "hello" [] initial).
  - reflexivity.
  - reflexivity.
  - discriminate.
  - discriminate.
Defined.

(** C3 (the code departs from it). The single-word routes strip the word
    before [translate] lower-cases it; the batch route hands each item over
    as it came.  After "hello" was translated by the single-word route, the
    same route serves " Hello " from the cache, but the batch route sends
    " hello" to the provider and stores it under a second key. *)
Theorem batch_keys_keep_whitespace :
  let s1 := snd (api_translate_english chibai_provider "secret"
                   (PDict [("word", PStr "hello")]) initial) in
  let s2 := snd (api_batch_translate chibai_provider "secret"
                   (PDict [("words", PList [PStr " hello"]);
                           ("direction", PStr "en-to-mizo")]) s1) in
  snd (api_translate_english chibai_provider "secret"
         (PDict [("word", PStr " Hello ")]) s1) = s1 ∧
  en_to_mizo s1 = {[ "hello" := PStr "chibai" ]} ∧
  en_to_mizo s2 = {[ "hello" := PStr "chibai"; " hello" := PStr "chibai" ]} ∧
  sent s2 = [call_for "secret" EnglishToMizo "hello";
             call_for "secret" EnglishToMizo " hello"].
Proof. repeat split; vm_compute; reflexivity. Qed.

(** * Further properties of the server *)

(** ** Relations that every route respects *)

Section Respects.

Variable provider : list call -> call -> post_result.
Variable GOOGLE_API_KEY : string.
Variable R : state -> state -> Prop.
Hypothesis R_refl : ∀ s, R s s.
Hypothesis R_trans : ∀ s1 s2 s3, R s1 s2 -> R s2 s3 -> R s1 s3.
Hypothesis R_translate :
  ∀ text direction, respects R (translate provider GOOGLE_API_KEY text direction).
Hypothesis R_clear : ∀ direction, respects R (CACHE_clear direction).

Lemma respects_ret {A} (a : A) : respects R (ret a).
Proof. intros s. apply R_refl. Qed.

Lemma respects_raise {A} (e : exn) : respects R (@raise A e).
Proof. intros s. apply R_refl. Qed.

Lemma respects_lift {A} (o : outcome A) : respects R (lift o).
Proof. intros s. apply R_refl. Qed.

Lemma respects_bind {A B} (m : M A) (f : A -> M B) :
  respects R m -> (∀ a, respects R (f a)) -> respects R (bind m f).
Proof.
  intros Hm Hf s. unfold bind.
  specialize (Hm s). destruct (m s) as [[a|e] s1]; simpl in *; [|done].
  eapply R_trans; [exact Hm | apply Hf].
Qed.

Lemma respects_CACHE_getitem (direction : pyval) :
  respects R (CACHE_getitem direction).
Proof.
  intros s. unfold CACHE_getitem.
  destruct direction as [| | |k| |]; try apply R_refl.
  destruct (String.eqb k _); [apply R_refl|].
  destruct (String.eqb k _); apply R_refl.
Qed.

Lemma respects_batch_loop (words : list pyval) (direction : pyval) :
  ∀ results,
    respects R (batch_loop provider GOOGLE_API_KEY words direction results).
Proof.
  induction words as [|word rest IH]; intros results; simpl.
  - apply respects_ret.
  - apply respects_bind; [apply R_translate | intros translation; apply IH].
Qed.

Ltac respects_step :=
  first
    [ apply respects_ret | apply respects_raise | apply respects_lift
    | apply respects_CACHE_getitem | apply R_translate | apply R_clear
    | apply respects_batch_loop
    | apply respects_bind; [| intros ? ]
    | match goal with |- respects _ (if ?b then _ else _) => destruct b end
    | match goal with |- respects _ (match ?v with _ => _ end) => destruct v end ].

Lemma respects_serve (r : request) :
  respects R (serve provider GOOGLE_API_KEY r).
Proof.
  destruct r; simpl.
  - unfold api_translate_mizo. repeat respects_step.
  - unfold api_translate_english. repeat respects_step.
  - unfold api_batch_translate. repeat respects_step.
  - unfold api_status. repeat respects_step.
  - unfold api_clear_cache. repeat respects_step.
Qed.

Lemma respects_perform (a : action) (s : state) :
  R s (perform provider GOOGLE_API_KEY a s).
Proof.
  destruct a as [text direction|r]; simpl.
  - apply R_translate.
  - apply respects_serve.
Qed.

Lemma respects_perform_all (acts : list action) :
  ∀ s, R s (perform_all provider GOOGLE_API_KEY acts s).
Proof.
  induction acts as [|a acts IH]; intros s; simpl.
  - apply R_refl.
  - eapply R_trans; [apply respects_perform | apply IH].
Qed.

End Respects.

(** ** What one call of [translate] does to the state *)

Section Effect.

Variable provider : list call -> call -> post_result.
Variable GOOGLE_API_KEY : string.

(** A call of [translate], whatever its arguments, leaves the state alone
    or, on a miss, logs one request and possibly stores its truthy
    answer under the lower-cased text. *)
Lemma translate_effect (text direction : pyval) (s : state) :
  let s' := snd (translate provider GOOGLE_API_KEY text direction s) in
  s' = s ∨
  ∃ d t, text = PStr t ∧ direction = direction_key d ∧
         cache_of d s !! lower t = None ∧
         (s' = logged (call_for GOOGLE_API_KEY d t) s ∨
          ∃ v, truthy v = true ∧
               s' = stored d (lower t) v (logged (call_for GOOGLE_API_KEY d t) s)).
Proof.
  destruct (translate_cases provider GOOGLE_API_KEY text direction s)
    as [[e He]|(d & t & -> & ->)]; simpl.
  - left. by rewrite He.
  - rewrite translate_spec.
    destruct (cache_of d s !! lower t) as [cached|] eqn:Hmiss; [by left|].
    right. exists d, t. repeat split; try done. simpl.
    destruct (truthy _) eqn:Hv; [right; eauto | by left].
Qed.

Lemma lower_char_idempotent (c : ascii) : lower_char (lower_char c) = lower_char c.
Proof. destruct c as [[] [] [] [] [] [] [] []]; reflexivity. Qed.

Lemma lower_idempotent (text : string) : lower (lower text) = lower text.
Proof.
  induction text as [|c text IH]; simpl; [done|].
  by rewrite lower_char_idempotent, IH.
Qed.

Lemma cache_of_logged (d : direction) (c : call) (s : state) :
  cache_of d (logged c s) = cache_of d s.
Proof. by destruct d. Qed.

Lemma cache_of_stored_same (d : direction) (k : string) (v : pyval) (s : state) :
  cache_of d (stored d k v s) = <[k := v]> (cache_of d s).
Proof. by destruct d. Qed.

Lemma cache_of_stored_other (d : direction) (k : string) (v : pyval) (s : state) :
  cache_of (other d) (stored d k v s) = cache_of (other d) s.
Proof. by destruct d. Qed.

Lemma lookup_stored (d d' : direction) (k k' : string) (v v' : pyval) (s : state) :
  cache_of d' (stored d k v s) !! k' = Some v' ->
  (d' = d ∧ k' = k ∧ v' = v) ∨ cache_of d' s !! k' = Some v'.
Proof.
  destruct d, d'; simpl; try (by right);
    (destruct (decide (k = k')) as [<-|Hne];
     [rewrite lookup_insert_eq; intros [= <-]; by left
     |rewrite lookup_insert_ne by done; by right]).
Qed.

Lemma translate_values_truthy (text direction : pyval) :
  respects (preserved values_truthy)
    (translate provider GOOGLE_API_KEY text direction).
Proof.
  intros s Hinv.
  destruct (translate_effect text direction s)
    as [->|(d & t & _ & _ & _ & [->|(v & Hv & ->)])]; [done| |].
  - intros d' k v'. rewrite cache_of_logged. apply Hinv.
  - intros d' k v' Hlook. apply lookup_stored in Hlook as [(_ & _ & ->)|Hlook];
      [done|]. rewrite cache_of_logged in Hlook. by eapply Hinv.
Qed.

Lemma translate_keys_lowered (text direction : pyval) :
  respects (preserved keys_lowered)
    (translate provider GOOGLE_API_KEY text direction).
Proof.
  intros s Hinv.
  destruct (translate_effect text direction s)
    as [->|(d & t & _ & _ & _ & [->|(v & Hv & ->)])]; [done| |].
  - intros d' k. rewrite cache_of_logged. apply Hinv.
  - intros d' k [v' Hlook]. apply lookup_stored in Hlook as [(_ & -> & _)|Hlook].
    + apply lower_idempotent.
    + rewrite cache_of_logged in Hlook. by eapply Hinv.
Qed.

Lemma translate_calls_well_formed (text direction : pyval) :
  respects (preserved (calls_well_formed GOOGLE_API_KEY))
    (translate provider GOOGLE_API_KEY text direction).
Proof.
  intros s Hinv.
  destruct (translate_effect text direction s)
    as [->|(d & t & _ & _ & _ & [->|(v & Hv & ->)])]; [done| |];
    unfold calls_well_formed in *.
  - simpl. apply Forall_app. split; [done|].
    apply Forall_singleton. by exists d, t.
  - assert (Hsent : ∀ s0, sent (stored d (lower t) v s0) = sent s0)
      by (intros s0; by destruct d).
    rewrite Hsent. simpl. apply Forall_app. split; [done|].
    apply Forall_singleton. by exists d, t.
Qed.

Lemma clear_effect (direction : pyval) (s : state) :
  let s' := snd (CACHE_clear direction s) in
  sent s' = sent s ∧
  ∀ d, cache_of d s' = cache_of d s ∨ cache_of d s' = ∅.
Proof.
  unfold CACHE_clear. destruct direction as [| | |k| |]; simpl;
    try (split; [done | by left]).
  destruct (String.eqb k _); simpl; [split; [done|]; intros []; simpl; auto|].
  destruct (String.eqb k _); simpl; split; try done; intros []; simpl; auto.
Qed.

Lemma clear_values_truthy (direction : pyval) :
  respects (preserved values_truthy) (CACHE_clear direction).
Proof.
  intros s Hinv d k v.
  destruct (clear_effect direction s) as [_ Hc].
  destruct (Hc d) as [-> | ->]; [apply Hinv | by rewrite lookup_empty].
Qed.

Lemma clear_keys_lowered (direction : pyval) :
  respects (preserved keys_lowered) (CACHE_clear direction).
Proof.
  intros s Hinv d k.
  destruct (clear_effect direction s) as [_ Hc].
  destruct (Hc d) as [-> | ->]; [apply Hinv|].
  rewrite lookup_empty. by intros [? ?].
Qed.

Lemma clear_calls_well_formed (direction : pyval) :
  respects (preserved (calls_well_formed GOOGLE_API_KEY)) (CACHE_clear direction).
Proof.
  intros s Hinv. unfold calls_well_formed.
  by destruct (clear_effect direction s) as [-> _].
Qed.

Lemma preserved_refl (I : state -> Prop) (s : state) : preserved I s s.
Proof. by intros H. Qed.

Lemma preserved_trans (I : state -> Prop) (s1 s2 s3 : state) :
  preserved I s1 s2 -> preserved I s2 s3 -> preserved I s1 s3.
Proof. intros H12 H23 H. by apply H23, H12. Qed.

(** X1. Whatever the process has done since it started (calls of
    [translate] on any arguments, any requests with any bodies, clears
    included), every value in the cache is truthy: a failed or empty
    translation is never memoised. *)
Theorem cache_holds_only_truthy (acts : list action) :
  values_truthy (perform_all provider GOOGLE_API_KEY acts initial).
Proof.
  apply (respects_perform_all provider GOOGLE_API_KEY (preserved values_truthy)
           (preserved_refl _) (preserved_trans _)
           translate_values_truthy clear_values_truthy acts initial).
  intros d k v. destruct d; simpl; by rewrite lookup_empty.
Qed.

(** X2. Whatever the process has done since it started, every key of
    either cache is its own lower-case form. *)
Theorem cache_keys_are_lower_case (acts : list action) :
  keys_lowered (perform_all provider GOOGLE_API_KEY acts initial).
Proof.
  apply (respects_perform_all provider GOOGLE_API_KEY (preserved keys_lowered)
           (preserved_refl _) (preserved_trans _)
           translate_keys_lowered clear_keys_lowered acts initial).
  intros d k [v Hv]. destruct d; simpl in Hv; by rewrite lookup_empty in Hv.
Qed.

(** X3. Every request the process has ever sent to the provider asks for
    the translation of a string from English ('en') to Mizo ('lus') or
    back, with the configured key and the format 'text'; this holds
    whatever bodies the routes were given. *)
Theorem only_well_formed_calls_are_sent (acts : list action) :
  Forall (fun c =>
            key c = GOOGLE_API_KEY ∧ format c = "text" ∧
            (∃ text, q c = PStr text) ∧
            (source c = PStr "en" ∧ target c = PStr "lus" ∨
             source c = PStr "lus" ∧ target c = PStr "en"))
         (sent (perform_all provider GOOGLE_API_KEY acts initial)).
Proof.
  assert (Hwf : calls_well_formed GOOGLE_API_KEY
                  (perform_all provider GOOGLE_API_KEY acts initial)).
  { apply (respects_perform_all provider GOOGLE_API_KEY
             (preserved (calls_well_formed GOOGLE_API_KEY))
             (preserved_refl _) (preserved_trans _)
             translate_calls_well_formed clear_calls_well_formed acts initial).
    apply Forall_nil_2. }
  eapply Forall_impl; [exact Hwf|].
  intros c (d & text & ->). repeat split; eauto.
  destruct d; simpl; auto.
Qed.

End Effect.

(** ** How many requests a route may send *)

Section Budget.

Variable provider : list call -> call -> post_result.
Variable GOOGLE_API_KEY : string.

Lemma sends_ret {A} (a : A) : sends_at_most 0 (ret a).
Proof. intros s. exists []. by rewrite app_nil_r. Qed.

Lemma sends_raise {A} (e : exn) : sends_at_most 0 (@raise A e).
Proof. intros s. exists []. by rewrite app_nil_r. Qed.

Lemma sends_lift {A} (o : outcome A) : sends_at_most 0 (lift o).
Proof. intros s. exists []. by rewrite app_nil_r. Qed.

Lemma sends_weaken {A} (n n' : nat) (m : M A) :
  (n <= n')%nat -> sends_at_most n m -> sends_at_most n' m.
Proof.
  intros Hle Hm s. destruct (Hm s) as (more & Hsent & Hlen).
  exists more. split; [done | lia].
Qed.

Lemma sends_bind {A B} (n1 n2 : nat) (m : M A) (f : A -> M B) :
  sends_at_most n1 m -> (∀ a, sends_at_most n2 (f a)) ->
  sends_at_most (n1 + n2) (bind m f).
Proof.
  intros Hm Hf s. unfold bind.
  destruct (Hm s) as (more1 & Hsent1 & Hlen1).
  destruct (m s) as [[a|e] s1]; simpl in *.
  - destruct (Hf a s1) as (more2 & Hsent2 & Hlen2).
    exists (more1 ++ more2). rewrite Hsent2, Hsent1, app_assoc.
    split; [done|]. rewrite length_app. lia.
  - exists more1. split; [done | lia].
Qed.

Lemma sends_CACHE_getitem (direction : pyval) :
  sends_at_most 0 (CACHE_getitem direction).
Proof.
  intros s. exists []. rewrite app_nil_r. split; [|done].
  unfold CACHE_getitem. destruct direction as [| | |k| |]; try done.
  destruct (String.eqb k _); [done|]. by destruct (String.eqb k _).
Qed.

Lemma sends_CACHE_clear (direction : pyval) :
  sends_at_most 0 (CACHE_clear direction).
Proof.
  intros s. exists []. rewrite app_nil_r. split; [|done].
  by destruct (clear_effect direction s) as [-> _].
Qed.

Lemma sends_translate (text direction : pyval) :
  sends_at_most 1 (translate provider GOOGLE_API_KEY text direction).
Proof.
  intros s.
  destruct (translate_effect provider GOOGLE_API_KEY text direction s)
    as [->|(d & t & _ & _ & _ & [->|(v & Hv & ->)])].
  - exists []. rewrite app_nil_r. split; [done | simpl; lia].
  - by exists [call_for GOOGLE_API_KEY d t].
  - exists [call_for GOOGLE_API_KEY d t]. split; [by destruct d | done].
Qed.

Lemma sends_batch_loop (words : list pyval) (direction : pyval) :
  ∀ results,
    sends_at_most (length words)
      (batch_loop provider GOOGLE_API_KEY words direction results).
Proof.
  induction words as [|word rest IH]; intros results; simpl.
  - apply sends_ret.
  - apply (sends_bind 1 (length rest)); [apply sends_translate|].
    intros translation. apply IH.
Qed.

Lemma sends_single (d : direction) (data : pyval) :
  sends_at_most 1 (single_route provider GOOGLE_API_KEY d data).
Proof.
  destruct d; unfold single_route, api_translate_english, api_translate_mizo;
    (apply (sends_bind 0 1); [apply sends_lift | intros field]);
    (apply (sends_bind 0 1); [apply sends_lift | intros word]);
    (destruct (negb _); [apply (sends_weaken 0); [lia | apply sends_ret]|]);
    (apply (sends_bind 1 0); [apply sends_translate | intros translation]);
    (destruct (truthy translation); [|apply sends_ret]);
    (apply (sends_bind 0 0); [apply sends_CACHE_getitem | intros entries]);
    apply sends_ret.
Qed.

Lemma sends_batch (data : pyval) :
  sends_at_most 20 (api_batch_translate provider GOOGLE_API_KEY data).
Proof.
  unfold api_batch_translate.
  apply (sends_bind 0 20); [apply sends_lift | intros words].
  apply (sends_bind 0 20); [apply sends_lift | intros direction].
  destruct (_ || _); [apply (sends_weaken 0); [lia | apply sends_ret]|].
  destruct words as [| | | |items|];
    try (apply (sends_weaken 0); [lia | apply sends_raise]).
  apply (sends_weaken (length (firstn 20 items) + 0));
    [rewrite length_firstn; lia|].
  apply sends_bind; [apply sends_batch_loop | intros results; apply sends_ret].
Qed.

Lemma sends_serve (r : request) :
  sends_at_most (budget r) (serve provider GOOGLE_API_KEY r).
Proof.
  destruct r as [data|data|data| |]; cbn [serve budget].
  - apply (sends_single MizoToEnglish).
  - apply (sends_single EnglishToMizo).
  - apply sends_batch.
  - unfold api_status.
    apply (sends_bind 0 0); [apply sends_CACHE_getitem | intros mizo].
    apply (sends_bind 0 0); [apply sends_CACHE_getitem | intros english].
    apply sends_ret.
  - unfold api_clear_cache.
    apply (sends_bind 0 0); [apply sends_CACHE_clear | intros ?].
    apply (sends_bind 0 0); [apply sends_CACHE_clear | intros ?].
    apply sends_ret.
Qed.

(** X4. No request, whatever its body, costs more provider requests than
    its route allows: one for a single-word route, twenty for the batch
    route, none for status and clear-cache; and no route ever drops a
    request from the log. *)
Theorem request_budget (r : request) (s : state) :
  ∃ more,
    sent (snd (serve provider GOOGLE_API_KEY r s)) = sent s ++ more ∧
    (length more <= budget r)%nat.
Proof. apply sends_serve. Qed.

End Budget.

(** ** More on the client and the single-word routes *)

Section SingleMore.

Variable provider : list call -> call -> post_result.
Variable GOOGLE_API_KEY : string.

(** X5. The client sends exactly one request per call and touches no
    cache; what it returns is never an exception, and it is something
    other than [None] only when the provider answered 200 with a payload
    whose first translated text is that value. *)
Theorem client_result_comes_from_a_200 (text source_lang target_lang : pyval)
    (s : state) :
  let c := {| q := text; source := source_lang; target := target_lang;
              key := GOOGLE_API_KEY; format := "text" |} in
  ∃ v,
    translate_with_google provider GOOGLE_API_KEY text source_lang target_lang s =
      (Return v, {| en_to_mizo := en_to_mizo s; mizo_to_en := mizo_to_en s;
                    sent := sent s ++ [c] |}) ∧
    (v ≠ PNone ->
     ∃ resp body,
       provider (sent s) c = Replied resp ∧ status_code resp = 200 ∧
       json resp = Some body ∧ first_translated_text body = Some v).
Proof.
  intros c. rewrite translate_with_google_spec. fold c.
  eexists. split; [reflexivity|].
  unfold client_result.
  destruct (provider (sent s) c) as [|resp]; [done|].
  destruct (Z.eqb_spec (status_code resp) 200) as [Hok|_]; [|done].
  destruct (json resp) as [body|] eqn:Hjson; [|done].
  destruct (first_translated_text body) as [t|] eqn:Hbody; [|done].
  intros _. by exists resp, body.
Qed.

(** A single-word route either stops before [translate] with the state
    untouched (the body is no object or the word no string: an
    [AttributeError]; the word is missing or blank: the 400 reply) or was
    given a non-blank string. *)
Lemma single_route_cases (d : direction) (data : pyval) (s : state) :
  single_route provider GOOGLE_API_KEY d data s = (Raise AttributeError, s) ∨
  single_route provider GOOGLE_API_KEY d data s =
    (Return (PDict [("error", PStr "No word provided");
                    ("success", PBool false)], 400), s) ∨
  ∃ items w, data = PDict items ∧
             dict_lookup "word" items = Some (PStr w) ∧ strip w ≠ "".
Proof.
  destruct data as [| | | | |items]; try (left; by destruct d).
  destruct (dict_lookup "word" items) as [field|] eqn:Hfield.
  - destruct field as [| | |w| |];
      try (left; destruct d;
           unfold single_route, api_translate_english, api_translate_mizo;
           unfold bind at 1, lift at 1, py_get; by rewrite Hfield).
    destruct (String.eqb_spec (strip w) "") as [Hblank|Hne].
    + right; left. destruct d;
        unfold single_route, api_translate_english, api_translate_mizo;
        unfold bind at 1, lift at 1, py_get; rewrite Hfield;
        unfold bind at 1, lift at 1, py_strip; by rewrite Hblank.
    + right; right. by exists items, w.
  - right; left. destruct d;
      unfold single_route, api_translate_english, api_translate_mizo;
      unfold bind at 1, lift at 1, py_get; by rewrite Hfield.
Qed.

(** X6. A body that is no JSON object, or whose [word] is there but is no
    string (a number, null, a list), is not answered with 400: the route
    raises [AttributeError] and leaves the state alone. *)
Theorem non_string_word_raises (d : direction) (data : pyval) (s : state) :
  (is_dict data = false ∨
   ∃ items field, data = PDict items ∧
                  dict_lookup "word" items = Some field ∧ is_str field = false) ->
  single_route provider GOOGLE_API_KEY d data s = (Raise AttributeError, s).
Proof.
  intros [Hdata|(items & field & -> & Hfield & Hstr)].
  - destruct data; try discriminate; by destruct d.
  - destruct d; unfold single_route, api_translate_english, api_translate_mizo;
      unfold bind at 1, lift at 1, py_get; rewrite Hfield;
      by destruct field.
Qed.

(** X7. A word that is in the cache is answered from it: the reply is the
    200 payload with the word as this request spelled it (stripped, case
    kept) and the stored translation, and the state does not change, so
    the provider is not contacted, whatever it would have said. *)
Theorem cached_word_needs_no_provider (d : direction)
    (items : list (string * pyval)) (w : string) (s : state) (v : pyval) :
  dict_lookup "word" items = Some (PStr w) ->
  strip w ≠ "" ->
  cache_of d s !! lower (strip w) = Some v ->
  truthy v = true ->
  single_route provider GOOGLE_API_KEY d (PDict items) s =
  (Return (single_payload d (strip w) v true, 200), s).
Proof.
  intros Hw Hne Hhit Hv.
  rewrite (single_route_spec provider GOOGLE_API_KEY d items w s Hw Hne).
  rewrite translate_spec, Hhit, Hv, Hhit.
  by rewrite bool_decide_eq_true_2.
Qed.

(** X8. A word that is not in the cache and that the provider translates
    (status 200, a payload with a truthy first translated text): one
    request is sent, carrying the stripped word in its own case with the
    codes of the direction; the translation is stored under the
    lower-cased stripped word and the reply is the 200 payload. *)
Theorem fresh_word_is_fetched_and_stored (d : direction)
    (items : list (string * pyval)) (w : string) (s : state)
    (resp : response) (body t : pyval) :
  dict_lookup "word" items = Some (PStr w) ->
  strip w ≠ "" ->
  cache_of d s !! lower (strip w) = None ->
  provider (sent s) (call_for GOOGLE_API_KEY d (strip w)) = Replied resp ->
  status_code resp = 200 ->
  json resp = Some body ->
  first_translated_text body = Some t ->
  truthy t = true ->
  ∃ s',
    single_route provider GOOGLE_API_KEY d (PDict items) s =
      (Return (single_payload d (strip w) t true, 200), s') ∧
    sent s' = sent s ++ [call_for GOOGLE_API_KEY d (strip w)] ∧
    cache_of d s' = <[lower (strip w) := t]> (cache_of d s) ∧
    cache_of (other d) s' = cache_of (other d) s.
Proof.
  intros Hw Hne Hmiss Hreply Hcode Hjson Hbody Ht.
  assert (Hres : client_result
            (provider (sent s) (call_for GOOGLE_API_KEY d (strip w))) = t).
  { unfold client_result. by rewrite Hreply, Hcode, Hjson, Hbody. }
  exists (stored d (lower (strip w)) t
            (logged (call_for GOOGLE_API_KEY d (strip w)) s)).
  split; [|split; [by destruct d | split]].
  - rewrite (single_route_spec provider GOOGLE_API_KEY d items w s Hw Hne).
    rewrite translate_spec, Hmiss. simpl. rewrite Hres, Ht.
    rewrite cache_of_stored_same, lookup_insert_eq.
    by rewrite bool_decide_eq_true_2.
  - by rewrite cache_of_stored_same, cache_of_logged.
  - by rewrite cache_of_stored_other, cache_of_logged.
Qed.

(** X9. A failed translation leaves no trace in the cache, so asking
    again asks the provider again: after a miss that came back falsy, both
    caches are as before and the next call for the same text sends the
    same request a second time. *)
Theorem failure_is_not_memoised (d : direction) (text : string)
    (s s1 : state) (v : pyval) :
  cache_of d s !! lower text = None ->
  translate provider GOOGLE_API_KEY (PStr text) (direction_key d) s = (Return v, s1) ->
  truthy v = false ->
  (∀ d', cache_of d' s1 = cache_of d' s) ∧
  ∃ v' s2,
    translate provider GOOGLE_API_KEY (PStr text) (direction_key d) s1 =
      (Return v', s2) ∧
    sent s2 = sent s ++ [call_for GOOGLE_API_KEY d text;
                         call_for GOOGLE_API_KEY d text].
Proof.
  intros Hmiss Htr Hv.
  rewrite translate_spec, Hmiss in Htr. simpl in Htr.
  injection Htr as Hres Hs1. rewrite Hres, Hv in Hs1. subst s1.
  split; [intros d'; apply cache_of_logged|].
  rewrite translate_spec, cache_of_logged, Hmiss. simpl.
  do 2 eexists. split; [reflexivity|].
  match goal with |- context [if truthy ?r then _ else _] =>
    destruct (truthy r) end; [destruct d|]; simpl; by rewrite <- app_assoc.
Qed.

(** X10. A fresh successful translation adds exactly one entry to the
    cache of its direction, which is what the status route counts, and
    none to the other. *)
Theorem fresh_entry_grows_cache_by_one (d : direction) (text : string)
    (s s1 : state) (v : pyval) :
  cache_of d s !! lower text = None ->
  translate provider GOOGLE_API_KEY (PStr text) (direction_key d) s = (Return v, s1) ->
  truthy v = true ->
  size (cache_of d s1) = S (size (cache_of d s)) ∧
  size (cache_of (other d) s1) = size (cache_of (other d) s).
Proof.
  intros Hmiss Htr Hv.
  rewrite translate_spec, Hmiss in Htr. simpl in Htr.
  injection Htr as Hres Hs1. rewrite Hres, Hv in Hs1. subst s1.
  rewrite cache_of_stored_same, cache_of_stored_other, !cache_of_logged.
  split; [|done]. by apply map_size_insert_None.
Qed.

(** X11. A single-word route never touches the cache of the other
    direction, whatever the body and whatever the provider answers. *)
Theorem single_route_leaves_other_direction (d : direction) (data : pyval)
    (s : state) :
  cache_of (other d) (snd (single_route provider GOOGLE_API_KEY d data s)) =
  cache_of (other d) s.
Proof.
  destruct (single_route_cases d data s)
    as [->|[->|(items & w & -> & Hw & Hne)]]; [done|done|].
  rewrite (single_route_spec provider GOOGLE_API_KEY d items w s Hw Hne).
  rewrite translate_spec.
  destruct (cache_of d s !! lower (strip w)) as [cached|].
  - by destruct (truthy cached).
  - simpl. destruct (truthy _); simpl.
    + by rewrite cache_of_stored_other, cache_of_logged.
    + by rewrite cache_of_logged.
Qed.

End SingleMore.

Lemma non_string_word_raises_witness :
  single_route chibai_provider "secret" EnglishToMizo
    (PDict [("word", PInt 5)]) initial = (Raise AttributeError, initial).
Proof.
  apply (non_string_word_raises chibai_provider "secret" EnglishToMizo
           (PDict [("word", PInt 5)]) initial).
  right. exists [("word", PInt 5)], (PInt 5). repeat split.
Defined.

Lemma cached_word_needs_no_provider_witness :
  single_route unreachable_provider "secret" MizoToEnglish
    (PDict [("word", PStr " Tlawm ")])
    {| en_to_mizo := ∅; mizo_to_en := {[ "tlawm" := PStr "thanks" ]};
       sent := [] |} =
  (Return (single_payload MizoToEnglish (strip " Tlawm ") (PStr "thanks") true,
           200),
   {| en_to_mizo := ∅; mizo_to_en := {[ "tlawm" := PStr "thanks" ]};
      sent := [] |}).
Proof.
  apply (cached_word_needs_no_provider unreachable_provider "secret"
           MizoToEnglish [("word", PStr " Tlawm ")] " Tlawm ").
  - reflexivity.
  - discriminate.
  - vm_compute. reflexivity.
  - reflexivity.
Defined.

Lemma fresh_word_is_fetched_and_stored_witness :
  ∃ s',
    single_route chibai_provider "secret" EnglishToMizo
      (PDict [("word", PStr " Hello ")]) initial =
      (Return (single_payload EnglishToMizo (strip " Hello ") (PStr "chibai") true,
               200), s') ∧
    sent s' = sent initial ++ [call_for "secret" EnglishToMizo (strip " Hello ")] ∧
    cache_of EnglishToMizo s' =
      <[lower (strip " Hello ") := PStr "chibai"]> (cache_of EnglishToMizo initial) ∧
    cache_of (other EnglishToMizo) s' = cache_of (other EnglishToMizo) initial.
Proof.
  apply (fresh_word_is_fetched_and_stored chibai_provider "secret"
           EnglishToMizo [("word", PStr " Hello ")] " Hello " initial
           (reply_with "chibai")
           (PDict [("data", PDict [("translations",
              PList [PDict [("translatedText", PStr "chibai")]])])])).
  - reflexivity.
  - discriminate.
  - reflexivity.
  - reflexivity.
  - reflexivity.
  - reflexivity.
  - reflexivity.
  - reflexivity.
Defined.

Lemma failure_is_not_memoised_witness :
  (∀ d', cache_of d' (logged (call_for "secret" MizoToEnglish "tlawm") initial) =
         cache_of d' initial) ∧
  ∃ v' s2,
    translate flaky_provider "secret" (PStr "tlawm") (direction_key MizoToEnglish)
      (logged (call_for "secret" MizoToEnglish "tlawm") initial) = (Return v', s2) ∧
    sent s2 = sent initial ++ [call_for "secret" MizoToEnglish "tlawm";
                               call_for "secret" MizoToEnglish "tlawm"].
Proof.
  apply (failure_is_not_memoised flaky_provider "secret" MizoToEnglish "tlawm"
           initial _ PNone).
  - reflexivity.
  - vm_compute. reflexivity.
  - reflexivity.
Defined.

Lemma fresh_entry_grows_cache_by_one_witness :
  size (cache_of EnglishToMizo
          (stored EnglishToMizo "hello" (PStr "chibai")
             (logged (call_for "secret" EnglishToMizo "Hello") initial))) =
    S (size (cache_of EnglishToMizo initial)) ∧
  size (cache_of (other EnglishToMizo)
          (stored EnglishToMizo "hello" (PStr "chibai")
             (logged (call_for "secret" EnglishToMizo "Hello") initial))) =
    size (cache_of (other EnglishToMizo) initial).
Proof.
  apply (fresh_entry_grows_cache_by_one chibai_provider "secret" EnglishToMizo
           "Hello" initial _ (PStr "chibai")).
  - reflexivity.
  - vm_compute. reflexivity.
  - reflexivity.
Defined.

(** ** More on the batch route *)

Section BatchMore.

Variable provider : list call -> call -> post_result.
Variable GOOGLE_API_KEY : string.

Lemma api_batch_translate_invalid (items : list (string * pyval)) (s : state) :
  (∀ word rest, dict_lookup "words" items ≠ Some (PList (word :: rest))) ->
  api_batch_translate provider GOOGLE_API_KEY (PDict items) s =
  (Return (PDict [("error", PStr "Invalid words list");
                  ("success", PBool false)], 400), s).
Proof.
  intros Hwords. unfold api_batch_translate.
  unfold bind at 1, lift at 1, py_get.
  unfold bind at 1, lift at 1.
  destruct (dict_lookup "words" items) as [words|]; [|done].
  destruct words as [| | | |l|]; try done; try by destruct (truthy _).
  destruct l as [|word rest]; [done|]. by destruct (Hwords word rest).
Qed.

(** X12. A body whose [words] is missing, is the empty list or is not a
    list at all (a string, a number, an object) gets the 400 reply
    'Invalid words list' and nothing else happens; the [direction] is not
    looked at, so this holds for an unknown direction too. *)
Theorem batch_rejects_what_is_no_list (items : list (string * pyval))
    (s : state) :
  (∀ word rest, dict_lookup "words" items ≠ Some (PList (word :: rest))) ->
  api_batch_translate provider GOOGLE_API_KEY (PDict items) s =
  (Return (PDict [("error", PStr "Invalid words list");
                  ("success", PBool false)], 400), s).
Proof. apply api_batch_translate_invalid. Qed.

Lemma translate_each_stops (direction : pyval) (bad : pyval) (e : exn)
    (post pre : list pyval) :
  ∀ (s s' : state) (translations : list pyval),
    translate_each provider GOOGLE_API_KEY pre direction s =
      (Return translations, s') ->
    translate provider GOOGLE_API_KEY bad direction s' = (Raise e, s') ->
    translate_each provider GOOGLE_API_KEY (pre ++ bad :: post) direction s =
      (Raise e, s').
Proof.
  induction pre as [|word pre IH]; intros s s' translations Hpre Hbad.
  - injection Hpre as _ <-. cbn [app translate_each]. unfold bind.
    by rewrite Hbad.
  - cbn [app translate_each] in *. unfold bind in *.
    destruct (translate provider GOOGLE_API_KEY word direction s)
      as [[translation|e'] s1]; [|done].
    destruct (translate_each provider GOOGLE_API_KEY pre direction s1)
      as [[others|e'] s2] eqn:Hrest; [|done].
    injection Hpre as _ <-.
    by rewrite (IH s1 s2 others Hrest Hbad).
Qed.

(** X13. An item that is no string among the first 20 words stops the
    batch with an [AttributeError] when its turn comes: no reply is built,
    but the words before it have been translated and stay in the cache. *)
Theorem batch_stops_at_non_string (d : direction)
    (items : list (string * pyval)) (pre post : list pyval) (bad : pyval)
    (s : state) :
  dict_lookup "words" items = Some (PList (pre ++ bad :: post)) ->
  forallb is_str pre = true ->
  is_str bad = false ->
  (length pre < 20)%nat ->
  batch_direction items = direction_key d ->
  ∃ translations s',
    translate_each provider GOOGLE_API_KEY pre (direction_key d) s =
      (Return translations, s') ∧
    length translations = length pre ∧
    api_batch_translate provider GOOGLE_API_KEY (PDict items) s =
      (Raise AttributeError, s').
Proof.
  intros Hwords Hpre Hbad Hlen Hd.
  destruct (translate_each_total provider GOOGLE_API_KEY d pre Hpre s)
    as (translations & s' & Heach & Hlen').
  exists translations, s'. split; [done|]. split; [done|].
  rewrite (api_batch_translate_spec provider GOOGLE_API_KEY items _ s Hwords)
    by (by destruct pre).
  rewrite firstn_app, firstn_all2 by lia.
  destruct (20 - length pre)%nat as [|n] eqn:Hn; [lia|]. cbn [firstn].
  rewrite Hd.
  rewrite (translate_each_stops (direction_key d) bad AttributeError
             (firstn n post) pre s s' translations Heach); [done|].
  by destruct bad.
Qed.

Lemma translate_each_leaves_other (d : direction) (words : list pyval) :
  ∀ s, cache_of (other d)
         (snd (translate_each provider GOOGLE_API_KEY words (direction_key d) s)) =
       cache_of (other d) s.
Proof.
  induction words as [|word rest IH]; intros s; [done|].
  cbn [translate_each]. unfold bind.
  assert (Hword : cache_of (other d)
            (snd (translate provider GOOGLE_API_KEY word (direction_key d) s)) =
            cache_of (other d) s).
  { destruct (translate_effect provider GOOGLE_API_KEY word (direction_key d) s)
      as [->|(d' & t & _ & Hd & _ & [->|(v & _ & ->)])]; [done| |].
    - apply cache_of_logged.
    - assert (d' = d) as -> by (by destruct d, d').
      by rewrite cache_of_stored_other, cache_of_logged. }
  destruct (translate provider GOOGLE_API_KEY word (direction_key d) s)
    as [[translation|e] s1]; simpl in Hword; [|done].
  specialize (IH s1).
  destruct (translate_each provider GOOGLE_API_KEY rest (direction_key d) s1)
    as [[others|e] s2]; simpl in *; congruence.
Qed.

(** X14. A batch in one direction never touches the cache of the other
    direction, whatever the words are (strings or not, any number of them)
    and whatever the provider answers. *)
Theorem batch_leaves_other_direction (d : direction)
    (items : list (string * pyval)) (s : state) :
  batch_direction items = direction_key d ->
  cache_of (other d)
    (snd (api_batch_translate provider GOOGLE_API_KEY (PDict items) s)) =
  cache_of (other d) s.
Proof.
  intros Hd.
  destruct (dict_lookup "words" items) as [words|] eqn:Hwords.
  - destruct words as [| | | |[|word rest]|];
      try (rewrite api_batch_translate_invalid; [done|];
           intros ? ?; by rewrite Hwords).
    rewrite (api_batch_translate_spec provider GOOGLE_API_KEY items _ s Hwords)
      by done.
    rewrite Hd.
    pose proof (translate_each_leaves_other d (firstn 20 (word :: rest)) s) as H.
    by destruct (translate_each _ _ _ _ s) as [[translations|e] s'].
  - rewrite api_batch_translate_invalid; [done|].
    intros ? ?; by rewrite Hwords.
Qed.

(** X15. Two words of one batch that differ only in letter case cost one
    provider request: the first is fetched and stored, the second is served
    from that entry, and each is echoed in the reply as it was spelled. *)
Theorem batch_shares_entry_across_case (d : direction)
    (items : list (string * pyval)) (w1 w2 : string) (s : state) (t : pyval) :
  dict_lookup "words" items = Some (PList [PStr w1; PStr w2]) ->
  batch_direction items = direction_key d ->
  lower w2 = lower w1 ->
  cache_of d s !! lower w1 = None ->
  client_result (provider (sent s) (call_for GOOGLE_API_KEY d w1)) = t ->
  truthy t = true ->
  ∃ s',
    api_batch_translate provider GOOGLE_API_KEY (PDict items) s =
      (Return (batch_payload
                 [batch_entry (direction_key d) (PStr w1) t;
                  batch_entry (direction_key d) (PStr w2) t], 200), s') ∧
    sent s' = sent s ++ [call_for GOOGLE_API_KEY d w1].
Proof.
  intros Hwords Hd Hlow Hmiss Hres Ht.
  exists (stored d (lower w1) t (logged (call_for GOOGLE_API_KEY d w1) s)).
  split; [|by destruct d].
  rewrite (api_batch_translate_spec provider GOOGLE_API_KEY items _ s Hwords)
    by done.
  rewrite Hd. cbn [firstn translate_each]. unfold bind at 1.
  rewrite translate_spec, Hmiss. cbv zeta. rewrite Hres, Ht.
  unfold bind at 1. unfold bind at 1.
  rewrite translate_spec, Hlow, cache_of_stored_same, lookup_insert_eq.
  unfold bind, ret. cbn [successes]. by rewrite Ht.
Qed.

End BatchMore.

(** ** Start of the process *)

(** X16. The process serves only when the environment gives a non-empty
    key, and then starts from the empty cache with nothing sent; in every
    state of such a process the status route answers 200 with
    [api_key_configured: true] and changes nothing.  Without a key it
    exits with status 1. *)
Theorem serving_needs_a_key (getenv : option string) :
  match startup getenv with
  | Serving api_key s0 =>
      getenv = Some api_key ∧ api_key ≠ "" ∧ s0 = initial ∧
      ∀ s, ∃ body,
        api_status api_key s = (Return (body, 200), s) ∧
        py_getitem_str body "api_key_configured" = Return (PBool true)
  | Exited code =>
      code = 1 ∧ (getenv = None ∨ getenv = Some "")
  end.
Proof.
  destruct getenv as [api_key|]; simpl; [|auto].
  destruct (String.eqb_spec api_key "") as [->|Hne]; simpl; [auto|].
  repeat split; [done|]. intros s. eexists. split; [reflexivity|].
  simpl. by destruct (String.eqb_spec api_key "").
Qed.

Lemma batch_rejects_what_is_no_list_witness :
  api_batch_translate chibai_provider "secret"
    (PDict [("words", PStr "hello"); ("direction", PStr "nowhere")]) initial =
  (Return (PDict [("error", PStr "Invalid words list");
                  ("success", PBool false)], 400), initial).
Proof.
  apply (batch_rejects_what_is_no_list chibai_provider "secret"
           [("words", PStr "hello"); ("direction", PStr "nowhere")] initial).
  intros word rest. discriminate.
Defined.

Lemma batch_stops_at_non_string_witness :
  ∃ translations s',
    translate_each chibai_provider "secret" [PStr "hello"]
      (direction_key EnglishToMizo) initial = (Return translations, s') ∧
    length translations = length [PStr "hello"] ∧
    api_batch_translate chibai_provider "secret"
      (PDict [("words", PList ([PStr "hello"] ++ PInt 7 :: [PStr "world"]));
              ("direction", PStr "en-to-mizo")]) initial =
      (Raise AttributeError, s').
Proof.
  apply (batch_stops_at_non_string chibai_provider "secret" EnglishToMizo
           [("words", PList ([PStr "hello"] ++ PInt 7 :: [PStr "world"]));
            ("direction", PStr "en-to-mizo")]
           [PStr "hello"] [PStr "world"] (PInt 7) initial).
  - reflexivity.
  - reflexivity.
  - reflexivity.
  - simpl. lia.
  - reflexivity.
Defined.

Lemma batch_leaves_other_direction_witness :
  cache_of (other MizoToEnglish)
    (snd (api_batch_translate chibai_provider "secret"
            (PDict [("words", PList [PStr "tlawm"])]) initial)) =
  cache_of (other MizoToEnglish) initial.
Proof.
  apply (batch_leaves_other_direction chibai_provider "secret" MizoToEnglish
           [("words", PList [PStr "tlawm"])] initial).
  reflexivity.
Defined.

Lemma batch_shares_entry_across_case_witness :
  ∃ s',
    api_batch_translate chibai_provider "secret"
      (PDict [("words", PList [PStr "Tlawm"; PStr "tlawm"])]) initial =
      (Return (batch_payload
                 [batch_entry (direction_key MizoToEnglish) (PStr "Tlawm")
                    (PStr "chibai");
                  batch_entry (direction_key MizoToEnglish) (PStr "tlawm")
                    (PStr "chibai")], 200), s') ∧
    sent s' = sent initial ++ [call_for "secret" MizoToEnglish "Tlawm"].
Proof.
  apply (batch_shares_entry_across_case chibai_provider "secret" MizoToEnglish
           [("words", PList [PStr "Tlawm"; PStr "tlawm"])] "Tlawm" "tlawm"
           initial (PStr "chibai")).
  - reflexivity.
  - reflexivity.
  - reflexivity.
  - reflexivity.
  - reflexivity.
  - reflexivity.
Defined.
